(** * Soft Power Switch Mk2 example sketch: a shallow embedding

    Source: Examples/SoftPowerSwitchMk2_Example/SoftPowerSwitchMk2_Example.ino

    The sketch is a single-threaded Arduino program: [setup] runs once,
    then [loop] is called over and over.  It reads one digital input (the
    PUSH line, LOW while the power button is pressed), reads the
    millisecond clock, busy-waits with [delay], talks to the serial
    console, and drives two outputs (the status LED and the OFF line).

    Time model.  [now] is the number of milliseconds elapsed since reset.
    [delay n] advances it by [n]; every other statement takes no time.
    [millis()] is an [unsigned long], so it returns [now] modulo 2^32, and
    the subtractions of the sketch wrap around the same way.

    Loops.  Three loops of the sketch have no bound of their own (the two
    loops of the lock test wait for the user, the loop of [powerDown]
    never ends), so every [while] takes a number of iterations it may
    run.  A computation either returns ([Done]) or is still inside the
    loop named in [Spin] when the iterations are used up; [Spin] carries
    the state reached there. *)

From Stdlib Require Import ZArith String Ascii List Lia.
From stdpp Require Import base gmap.

Open Scope string_scope.
Open Scope list_scope.
Open Scope Z_scope.

(** ** Data *)

(** Level of a digital line. *)
Inductive level : Set := LOW | HIGH.

(** The two pin modes the sketch uses. *)
Inductive pin_mode : Set := INPUT_PULLUP | OUTPUT.

(** What has been sent to the serial console. *)
Inductive tx_item : Set :=
| TxStr (s : string)   (* Serial.print of a string *)
| TxNum (n : Z)        (* Serial.print of a number *)
| TxLn.                (* the line end of Serial.println *)

(** The loops of the sketch that can keep the processor. *)
Inductive loop_id : Set :=
| ConfirmLoop      (* setup, lines 50-60 *)
| LockWaitLoop     (* loop, lines 101-102 *)
| LockHoldLoop     (* loop, lines 106-114 *)
| RxFlushLoop      (* setup, lines 81-82 *)
| PowerDownLoop.   (* powerDown, lines 170-176 *)

(** How a loop body ends. *)
Inductive ctl : Set := Continue | Break.

Global Instance level_eq_dec : EqDecision level.
Proof. solve_decision. Defined.

Global Instance loop_id_eq_dec : EqDecision loop_id.
Proof. solve_decision. Defined.

(** What surrounds the program: the board's LED pin number (the Arduino
    core's [LED_BUILTIN], not defined in the sketch) and the level of
    every input line at every instant. *)
Record world : Type := {
  LED_BUILTIN : Z;
  pin_level : Z -> Z -> level   (* pin number, time in ms *)
}.

(** The program's state. *)
Record state : Type := {
  now : Z;                          (* ms since reset *)
  powerPressedStartTime : Z;        (* the sketch's only variable that changes *)
  gpio_mode : gmap Z pin_mode;      (* set by pinMode *)
  gpio_out : gmap Z level;          (* set by digitalWrite *)
  serial_rx : list ascii;           (* received, not yet read *)
  serial_tx : list tx_item          (* sent, oldest first *)
}.

(** Hardware connections (lines 26-33).  They are plain [int] globals in
    the sketch, never assigned after their initialisation. *)
Definition _PUSH : Z := 14.
Definition _OFF : Z := 32.
Definition STAT_LED (w : world) : Z := LED_BUILTIN w.
Definition debounceDelay : Z := 20.

(** ** The monad of the sketch's statements *)

Inductive result (A : Type) : Type :=
| Done (a : A) (s : state)
| Spin (l : loop_id) (s : state).

Arguments Done {A} a s.
Arguments Spin {A} l s.

(** A statement reads the world, has [fuel] iterations for each of its
    loops, and transforms the state. *)
Definition M (A : Type) : Type := world -> nat -> state -> result A.

Definition ret {A} (a : A) : M A := fun _ _ s => Done a s.

Definition bind {A B} (c : M A) (k : A -> M B) : M B :=
  fun w fuel s =>
    match c w fuel s with
    | Done a s1 => k a w fuel s1
    | Spin l s1 => Spin l s1
    end.

Declare Scope sketch_scope.
Delimit Scope sketch_scope with sketch.
Notation "x <- c ;; k" := (bind c (fun x => k))
  (at level 100, c at next level, right associativity) : sketch_scope.
Notation "c ;; k" := (bind c (fun _ => k))
  (at level 100, right associativity) : sketch_scope.
Open Scope sketch_scope.

(** [while (cond) { body }], where the body says whether it ended with
    [break].  [n] counts the iterations still allowed. *)
Fixpoint while_from (l : loop_id) (cond : M bool) (body : M ctl)
    (n : nat) (w : world) (fuel : nat) (s : state) : result unit :=
  match cond w fuel s with
  | Done true s1 =>
    match n with
    | O => Spin l s1
    | S n' =>
      match body w fuel s1 with
      | Done Continue s2 => while_from l cond body n' w fuel s2
      | Done Break s2 => Done tt s2
      | Spin l' s2 => Spin l' s2
      end
    end
  | Done false s1 => Done tt s1
  | Spin l' s1 => Spin l' s1
  end.

Definition while_ (l : loop_id) (cond : M bool) (body : M ctl) : M unit :=
  fun w fuel s => while_from l cond body fuel w fuel s.

(** ** The Arduino primitives the sketch calls *)

Definition two32 : Z := 2 ^ 32.

(** [unsigned long] subtraction. *)
Definition sub32 (a b : Z) : Z := (a - b) mod two32.

Definition millis : M Z := fun _ _ s => Done (now s mod two32) s.

(** The state [ms] milliseconds later. *)
Definition tick (ms : Z) (s : state) : state :=
  {| now := now s + ms;
     powerPressedStartTime := powerPressedStartTime s;
     gpio_mode := gpio_mode s; gpio_out := gpio_out s;
     serial_rx := serial_rx s; serial_tx := serial_tx s |}.

Definition delay (ms : Z) : M unit := fun _ _ s => Done tt (tick ms s).

Definition digitalRead (pin : Z) : M level := fun w _ s =>
  Done (pin_level w pin (now s)) s.

(** The state after [pinMode(pin, m)]. *)
Definition with_mode (pin : Z) (m : pin_mode) (s : state) : state :=
  {| now := now s;
     powerPressedStartTime := powerPressedStartTime s;
     gpio_mode := <[pin := m]> (gpio_mode s); gpio_out := gpio_out s;
     serial_rx := serial_rx s; serial_tx := serial_tx s |}.

Definition pinMode (pin : Z) (m : pin_mode) : M unit := fun _ _ s =>
  Done tt (with_mode pin m s).

(** The state after [digitalWrite(pin, v)]. *)
Definition with_out (pin : Z) (v : level) (s : state) : state :=
  {| now := now s;
     powerPressedStartTime := powerPressedStartTime s;
     gpio_mode := gpio_mode s; gpio_out := <[pin := v]> (gpio_out s);
     serial_rx := serial_rx s; serial_tx := serial_tx s |}.

Definition digitalWrite (pin : Z) (v : level) : M unit := fun _ _ s =>
  Done tt (with_out pin v s).

(** Reading and writing the global [powerPressedStartTime]. *)
Definition get_powerPressedStartTime : M Z := fun _ _ s =>
  Done (powerPressedStartTime s) s.

Definition with_start (v : Z) (s : state) : state :=
  {| now := now s;
     powerPressedStartTime := v;
     gpio_mode := gpio_mode s; gpio_out := gpio_out s;
     serial_rx := serial_rx s; serial_tx := serial_tx s |}.

Definition set_powerPressedStartTime (v : Z) : M unit := fun _ _ s =>
  Done tt (with_start v s).

(** The state after [items] have been sent to the console. *)
Definition sent (items : list tx_item) (s : state) : state :=
  {| now := now s;
     powerPressedStartTime := powerPressedStartTime s;
     gpio_mode := gpio_mode s; gpio_out := gpio_out s;
     serial_rx := serial_rx s; serial_tx := serial_tx s ++ items |}.

Definition emit (items : list tx_item) : M unit := fun _ _ s =>
  Done tt (sent items s).

Definition Serial_begin (baud : Z) : M unit := ret tt.
Definition Serial_flush : M unit := ret tt.
Definition Serial_print (t : string) : M unit := emit [TxStr t].
Definition Serial_println (t : string) : M unit := emit [TxStr t; TxLn].
Definition Serial_println_empty : M unit := emit [TxLn].
Definition Serial_println_num (n : Z) : M unit := emit [TxNum n; TxLn].

Definition Serial_available : M bool := fun _ _ s =>
  Done (match serial_rx s with [] => false | _ :: _ => true end) s.

(** The state whose receive buffer holds [rx]. *)
Definition with_rx (rx : list ascii) (s : state) : state :=
  {| now := now s;
     powerPressedStartTime := powerPressedStartTime s;
     gpio_mode := gpio_mode s; gpio_out := gpio_out s;
     serial_rx := rx; serial_tx := serial_tx s |}.

(** [Serial.read()] returns the next byte, or -1 when there is none. *)
Definition Serial_read : M Z := fun _ _ s =>
  match serial_rx s with
  | [] => Done (-1) s
  | c :: rest => Done (Z.of_N (N_of_ascii c)) (with_rx rest s)
  end.

(** The value of a character literal, and the conversion of the [int]
    that [Serial.read()] returns to [char].  Two [char]s are equal when
    their bytes are, whether [char] is signed or not on the board. *)
Definition char_lit (c : ascii) : Z := Z.of_N (N_of_ascii c).
Definition to_char (x : Z) : Z := x mod 256.

(** The global [STAT_LED], initialised to [LED_BUILTIN] (line 29). *)
Definition get_STAT_LED : M Z := fun w _ s => Done (STAT_LED w) s.

Definition is_low (v : level) : bool := bool_decide (v = LOW).
Definition is_high (v : level) : bool := bool_decide (v = HIGH).

(** ** The sketch *)

(** [powerDown] (lines 157-177).  PRINT_TIMER_OUTPUT is not defined, so
    the body of the final loop is the [delay(1)] alone. *)
Definition powerDown : M unit :=
  led <- get_STAT_LED ;;
  digitalWrite led LOW ;;
  Serial_println "Pulling OFF high" ;;
  Serial_flush ;;
  t <- millis ;;
  set_powerPressedStartTime t ;;
  pinMode _OFF OUTPUT ;;
  digitalWrite _OFF HIGH ;;
  while_ PowerDownLoop (ret true) (delay 1 ;; ret Continue).

(** [setup], line 50: the condition of the confirmation loop. *)
Definition confirm_cond : M bool :=
  v <- digitalRead _PUSH ;;
  ret (is_low v).

(** [setup], lines 51-60: the body of the confirmation loop. *)
Definition confirm_body : M ctl :=
  delay 100 ;;
  t <- millis ;;
  st <- get_powerPressedStartTime ;;
  if 500 <? sub32 t st then ret Break
  else Serial_print "." ;; ret Continue.

(** [setup], lines 48-61: the check that the button is still held. *)
Definition initial_power_on_check : M unit :=
  Serial_print "Initial power on check" ;;
  t0 <- millis ;;
  set_powerPressedStartTime t0 ;;
  while_ ConfirmLoop confirm_cond confirm_body ;;
  Serial_println_empty.

(** [setup] (lines 38-83). *)
Definition setup : M unit :=
  Serial_begin 115200 ;;
  Serial_println "Soft Power Switch Mk2 example" ;;
  pinMode _PUSH INPUT_PULLUP ;;
  initial_power_on_check ;;
  t <- millis ;;
  st <- get_powerPressedStartTime ;;
  (if sub32 t st <? 500
   then Serial_println "Power button tap. Returning to off state. Powering down" ;;
        powerDown
   else ret tt) ;;
  Serial_println "User wants to turn system on!" ;;
  set_powerPressedStartTime 0 ;;
  led <- get_STAT_LED ;;
  pinMode led OUTPUT ;;
  led' <- get_STAT_LED ;;
  digitalWrite led' HIGH ;;
  Serial_println "Press 'r' to enter infinite loop to test power-down override" ;;
  Serial_println "Press 'z' to do a powerdown" ;;
  Serial_println "Press and hold power button for 2s to do a powerdown" ;;
  while_ RxFlushLoop Serial_available (Serial_read ;; ret Continue).

(** [loop], lines 101-102: wait until the button is pressed. *)
Definition lock_wait_cond : M bool :=
  v <- digitalRead _PUSH ;;
  ret (is_high v).

Definition lock_wait_body : M ctl :=
  delay 1 ;;
  ret Continue.

(** [loop], lines 107-114: the body of the lock's [while (1)]. *)
Definition lock_hold_body : M ctl :=
  delay 1 ;;
  v <- digitalRead _PUSH ;;
  if is_high v then ret Break else ret Continue.

(** [loop], lines 98-116: the lock that tests the hardware override. *)
Definition lock_test : M unit :=
  Serial_println "System locked. Now hold power button to force power down without using software" ;;
  while_ LockWaitLoop lock_wait_cond lock_wait_body ;;
  t <- millis ;;
  set_powerPressedStartTime t ;;
  Serial_println "Doing nothing, waiting for power override to kick in" ;;
  while_ LockHoldLoop (ret true) lock_hold_body ;;
  Serial_println "User released button before forced powered could complete. Try again, but hold power button for 7s" ;;
  set_powerPressedStartTime 0.

(** [loop], lines 87-118: the console commands. *)
Definition serial_commands : M unit :=
  avail <- Serial_available ;;
  if avail then
    r <- Serial_read ;;
    let incoming := to_char r in
    if incoming =? char_lit "z" then
      Serial_println "Power down" ;;
      powerDown
    else if incoming =? char_lit "r" then lock_test
    else ret tt
  else ret tt.

(** [loop], lines 120-153: the power button. *)
Definition power_button : M unit :=
  v1 <- digitalRead _PUSH ;;
  st1 <- get_powerPressedStartTime ;;
  if is_low v1 && (st1 =? 0) then
    delay debounceDelay ;;
    v <- digitalRead _PUSH ;;
    if is_low v then
      Serial_println "User is pressing power button. Start timer." ;;
      t <- millis ;;
      set_powerPressedStartTime t
    else ret tt
  else
    v2 <- digitalRead _PUSH ;;
    st2 <- get_powerPressedStartTime ;;
    if is_low v2 && (0 <? st2) then
      delay debounceDelay ;;
      v <- digitalRead _PUSH ;;
      if is_low v then
        t <- millis ;;
        st <- get_powerPressedStartTime ;;
        if 2000 <? sub32 t st then
          Serial_println "Time to power down!" ;;
          powerDown
        else ret tt
      else ret tt
    else
      v3 <- digitalRead _PUSH ;;
      st3 <- get_powerPressedStartTime ;;
      if is_high v3 && (0 <? st3) then
        delay debounceDelay ;;
        v <- digitalRead _PUSH ;;
        (if is_high v then
           Serial_print "Power button released after ms: " ;;
           t <- millis ;;
           st <- get_powerPressedStartTime ;;
           Serial_println_num (sub32 t st)
         else ret tt) ;;
        set_powerPressedStartTime 0
      else ret tt.

(** [loop] (lines 85-154). *)
Definition loop : M unit :=
  serial_commands ;;
  power_button.

(** The Arduino core calls [setup] once and then [loop] for ever; here
    the first [n] calls of [loop]. *)
Fixpoint loops (n : nat) : M unit :=
  match n with
  | O => ret tt
  | S n' => loop ;; loops n'
  end.

Definition sketch (n : nat) : M unit :=
  setup ;;
  loops n.

(** ** Trying the sketch on concrete inputs *)

(** The state at reset, [t] ms after the clock started. *)
Definition reset_state (t : Z) : state :=
  {| now := t; powerPressedStartTime := 0;
     gpio_mode := ∅; gpio_out := ∅;
     serial_rx := []; serial_tx := [] |}.

(** A board whose LED is on pin 13 and whose button is held until
    [t_release] (not included), then released for good. *)
Definition held_until (t_release : Z) : world :=
  {| LED_BUILTIN := 13;
     pin_level := fun _ t => if t <? t_release then LOW else HIGH |}.

(** The same board with the button stuck: it reads pressed for ever. *)
Definition stuck_button : world :=
  {| LED_BUILTIN := 13; pin_level := fun _ _ => LOW |}.

(** The same board with the button held for ever, but for a glitch that
    reads released from [a] to [b] (not included). *)
Definition held_except (a b : Z) : world :=
  {| LED_BUILTIN := 13;
     pin_level := fun _ t => if (a <=? t) && (t <? b) then HIGH else LOW |}.

(** The same board with the button pressed from [a] to [b] (not
    included) and released the rest of the time. *)
Definition pressed_between (a b : Z) : world :=
  {| LED_BUILTIN := 13;
     pin_level := fun _ t => if (a <=? t) && (t <? b) then LOW else HIGH |}.

(** The same board with the button released until [a] and pressed for
    ever from [a] on. *)
Definition pressed_from (a : Z) : world :=
  {| LED_BUILTIN := 13;
     pin_level := fun _ t => if a <=? t then LOW else HIGH |}.

(** What a result says about the outputs. *)
Definition final_state {A} (r : result A) : state :=
  match r with Done _ s => s | Spin _ s => s end.

Definition returned {A} (r : result A) : bool :=
  match r with Done _ _ => true | Spin _ _ => false end.

Definition spinning_in {A} (r : result A) : option loop_id :=
  match r with Done _ _ => None | Spin l _ => Some l end.

(** The state [powerDown] has reached after [n] turns of its final loop. *)
Definition powered_down (w : world) (n : nat) (s : state) : state :=
  tick (Z.of_nat n)
    (with_out _OFF HIGH
      (with_mode _OFF OUTPUT
        (with_start (now s mod two32)
          (sent [TxStr "Pulling OFF high"; TxLn]
            (with_out (STAT_LED w) LOW s))))).

(** The state in which [initial_power_on_check] returns when it has
    printed [dots] dots and waited [d] ms. *)
Definition after_check (dots : nat) (d : Z) (s : state) : state :=
  sent [TxLn]
    (sent (repeat (TxStr ".") dots)
      (tick d
        (with_start (now s mod two32)
          (sent [TxStr "Initial power on check"] s)))).

(** The state in which [setup] reaches its first call of
    [initial_power_on_check]. *)
Definition booted (s : state) : state :=
  with_mode _PUSH INPUT_PULLUP
    (sent [TxStr "Soft Power Switch Mk2 example"; TxLn] s).

(** The state in which [setup] returns when lines 69-82 start in [s]. *)
Definition powered_on (w : world) (s : state) : state :=
  with_rx []
    (sent [TxStr "Press 'r' to enter infinite loop to test power-down override"; TxLn;
           TxStr "Press 'z' to do a powerdown"; TxLn;
           TxStr "Press and hold power button for 2s to do a powerdown"; TxLn]
      (with_out (STAT_LED w) HIGH
        (with_mode (STAT_LED w) OUTPUT
          (with_start 0
            (sent [TxStr "User wants to turn system on!"; TxLn] s))))).

(** The state in which [lock_test] starts its second loop, when the
    first one has waited [k] ms. *)
Definition lock_armed (k : Z) (s : state) : state :=
  sent [TxStr "Doing nothing, waiting for power override to kick in"; TxLn]
    (with_start ((now s + k) mod two32)
      (tick k
        (sent [TxStr "System locked. Now hold power button to force power down without using software"; TxLn]
          s))).

(** The state in which [lock_test] returns, when its second loop has
    waited [j] ms. *)
Definition after_lock (k j : Z) (s : state) : state :=
  with_start 0
    (sent [TxStr "User released button before forced powered could complete. Try again, but hold power button for 7s"; TxLn]
      (tick j (lock_armed k s))).

(** The time measured since [powerPressedStartTime], as the sketch
    computes it. *)
Definition held_ms (s : state) : Z :=
  sub32 (now s mod two32) (powerPressedStartTime s).

(** The button is pressed at time [t]. *)
Definition pressed (w : world) (t : Z) : Prop := pin_level w _PUSH t = LOW.
Definition released (w : world) (t : Z) : Prop := pin_level w _PUSH t = HIGH.

(** The states between two calls of [loop] in normal operation, on the
    board [w] reset in [s0]: where [setup] has returned, where a call of
    [loop] has returned, and the same states after the console has
    received something or after some time has passed (the calls of [loop]
    that wait for nothing take no time of their own).  The index is the
    instant at which the last call polled the button (line 120, after
    its console commands); for [setup] it is the instant of its return. *)
Inductive at_tick (w : world) (s0 : state) : Z -> state -> Prop :=
| tick_setup (fuel : nat) (s : state) :
    setup w fuel s0 = Done tt s -> at_tick w s0 (now s) s
| tick_loop (fuel : nat) (p : Z) (s s1 s' : state) :
    at_tick w s0 p s ->
    serial_commands w fuel s = Done tt s1 ->
    loop w fuel s = Done tt s' ->
    at_tick w s0 (now s1) s'
| tick_rx (p : Z) (s : state) (rx : list ascii) :
    at_tick w s0 p s -> at_tick w s0 p (with_rx rx s)
| tick_time (p : Z) (s : state) (d : Z) :
    at_tick w s0 p s -> 0 <= d -> at_tick w s0 p (tick d s).


(** What a statement that leaves the power alone may do to the state:
    the pin modes and the outputs are kept, the clock does not go back
    and the console transcript only grows. *)
Definition frame (s s' : state) : Prop :=
  gpio_out s' = gpio_out s /\
  gpio_mode s' = gpio_mode s /\
  now s <= now s' /\
  exists sent_now : list tx_item, serial_tx s' = serial_tx s ++ sent_now.

(** A statement that never enters [powerDown] and leaves the power
    alone, whether it returns or is still in one of its loops. *)
Definition quiet {A} (c : M A) : Prop :=
  forall (w : world) (fuel : nat) (s : state),
    spinning_in (c w fuel s) <> Some PowerDownLoop /\
    frame s (final_state (c w fuel s)).

(** The two ways a run started in [s] can stand: inside [powerDown]
    with the OFF line HIGH, or anywhere else with the power left alone. *)
Definition safe_outcome {A} (s : state) (r : result A) : Prop :=
  (spinning_in r = Some PowerDownLoop /\
   gpio_out (final_state r) !! _OFF = Some HIGH) \/
  (spinning_in r <> Some PowerDownLoop /\ frame s (final_state r)).

(** The same, keeping track of the OFF line only. *)
Definition off_outcome {A} (s : state) (r : result A) : Prop :=
  (spinning_in r = Some PowerDownLoop /\
   gpio_out (final_state r) !! _OFF = Some HIGH) \/
  (spinning_in r <> Some PowerDownLoop /\
   gpio_out (final_state r) !! _OFF = gpio_out s !! _OFF).

(** A hypothesis on the samples after [now s], used 1 ms later. *)
Ltac shift_sample H :=
  let i := fresh "i" in
  intros i; intros; cbn [tick now];
  match goal with
  | |- context [now ?s + 1 + Z.of_nat i] =>
    replace (now s + 1 + Z.of_nat i) with (now s + Z.of_nat (S i)) by lia
  end;
  apply H; lia.

(** A hypothesis on the first samples of a concrete board, sample by
    sample. *)
Ltac sample_cases i :=
  destruct i as [|[|[|[|[|[|i]]]]]];
  first [reflexivity | exfalso; lia].

(** ** Arithmetic of the millisecond clock *)

Lemma two32_pos : 0 < two32.
Proof. reflexivity. Qed.

Lemma sub32_elapsed (t d : Z) :
  0 <= d < two32 -> sub32 ((t + d) mod two32) (t mod two32) = d.
Proof.
  intros Hd. unfold sub32.
  rewrite <- Zminus_mod.
  replace (t + d - t) with d by lia.
  apply Z.mod_small. exact Hd.
Qed.

Lemma held_ms_tick (d : Z) (s : state) :
  held_ms (tick d s) = (held_ms s + d) mod two32.
Proof.
  unfold held_ms, sub32, tick. simpl.
  rewrite Zminus_mod_idemp_l, Zplus_mod_idemp_l.
  replace (now s mod two32 - powerPressedStartTime s + d)
    with (now s mod two32 + (d - powerPressedStartTime s)) by lia.
  rewrite Zplus_mod_idemp_l.
  f_equal. lia.
Qed.

(** ** States *)

Lemma tick_0 (s : state) : tick 0 s = s.
Proof. destruct s. unfold tick. simpl. f_equal. lia. Qed.

Lemma tick_tick (a b : Z) (s : state) : tick a (tick b s) = tick (b + a) s.
Proof. unfold tick. simpl. f_equal. lia. Qed.

Lemma level_cases (v : level) : v = LOW \/ v = HIGH.
Proof. destruct v; auto. Qed.

Lemma is_low_true (v : level) : v = LOW -> is_low v = true.
Proof. intros ->. reflexivity. Qed.

Lemma is_low_false (v : level) : v = HIGH -> is_low v = false.
Proof. intros ->. reflexivity. Qed.

Lemma is_high_true (v : level) : v = HIGH -> is_high v = true.
Proof. intros ->. reflexivity. Qed.

Lemma is_high_false (v : level) : v = LOW -> is_high v = false.
Proof. intros ->. reflexivity. Qed.

(** ** Sequencing *)

Lemma bind_Done {A B} (c : M A) (k : A -> M B) w fuel s a s1 :
  c w fuel s = Done a s1 -> bind c k w fuel s = k a w fuel s1.
Proof. intros E. unfold bind. now rewrite E. Qed.

Lemma bind_Spin {A B} (c : M A) (k : A -> M B) w fuel s l s1 :
  c w fuel s = Spin l s1 -> bind c k w fuel s = Spin l s1.
Proof. intros E. unfold bind. now rewrite E. Qed.

(** ** [powerDown] *)

Lemma powerDown_loop_spin (n : nat) (w : world) (fuel : nat) (s : state) :
  while_from PowerDownLoop (ret true) (delay 1 ;; ret Continue) n w fuel s
  = Spin PowerDownLoop (tick (Z.of_nat n) s).
Proof.
  revert s. induction n as [|n IH]; intros s.
  - simpl. now rewrite tick_0.
  - cbn [while_from ret bind delay]. rewrite IH, tick_tick.
    do 2 f_equal. lia.
Qed.

Lemma powerDown_spec (w : world) (fuel : nat) (s : state) :
  powerDown w fuel s = Spin PowerDownLoop (powered_down w fuel s).
Proof.
  unfold powerDown, bind, while_. cbn -[while_from].
  rewrite powerDown_loop_spin. reflexivity.
Qed.

(** The fields of the states built by the primitives. *)
Lemma sent_nil (s : state) : sent [] s = s.
Proof. destruct s. unfold sent. simpl. now rewrite app_nil_r. Qed.

Lemma sent_sent (a b : list tx_item) (s : state) :
  sent b (sent a s) = sent (a ++ b) s.
Proof. unfold sent. simpl. now rewrite app_assoc. Qed.

Lemma tick_sent (d : Z) (a : list tx_item) (s : state) :
  tick d (sent a s) = sent a (tick d s).
Proof. reflexivity. Qed.

Lemma held_ms_sent (a : list tx_item) (s : state) :
  held_ms (sent a s) = held_ms s.
Proof. reflexivity. Qed.

Lemma held_ms_started (s s' : state) :
  now s' = now s -> held_ms (with_start (now s mod two32) s') = 0.
Proof.
  intros E. unfold held_ms, sub32. simpl. rewrite E, Z.sub_diag. reflexivity.
Qed.

Lemma held_ms_range (s : state) : 0 <= held_ms s < two32.
Proof. unfold held_ms, sub32. apply Z.mod_pos_bound, two32_pos. Qed.

(** As long as the measured time does not reach 2^32 (some 49 days) it
    grows with the clock. *)
Lemma held_ms_tick_small (d : Z) (s : state) :
  0 <= d -> held_ms s + d < two32 ->
  held_ms (tick d s) = held_ms s + d.
Proof.
  intros Hd Hlt. pose proof (held_ms_range s).
  rewrite held_ms_tick. apply Z.mod_small. lia.
Qed.

(** ** [setup]: the confirmation loop *)

Section ConfirmLoop.

Context (w : world) (fuel : nat).

Lemma confirm_cond_spec (s : state) :
  confirm_cond w fuel s = Done (is_low (pin_level w _PUSH (now s))) s.
Proof. reflexivity. Qed.

Lemma confirm_body_spec (s : state) :
  confirm_body w fuel s =
  if 500 <? held_ms (tick 100 s) then Done Break (tick 100 s)
  else Done Continue (sent [TxStr "."] (tick 100 s)).
Proof.
  unfold confirm_body, bind, delay, millis, get_powerPressedStartTime.
  fold (held_ms (tick 100 s)).
  destruct (500 <? held_ms (tick 100 s)); reflexivity.
Qed.

(** The button is released at the [k]-th sample, before the time is up:
    the loop ends there, by its condition. *)
Lemma confirm_loop_released :
  forall (k n : nat) (s : state),
    (k <= n)%nat ->
    held_ms s + 100 * Z.of_nat k <= 500 ->
    (forall i : nat, (i < k)%nat -> pressed w (now s + 100 * Z.of_nat i)) ->
    released w (now s + 100 * Z.of_nat k) ->
    while_from ConfirmLoop confirm_cond confirm_body n w fuel s
    = Done tt (sent (repeat (TxStr ".") k) (tick (100 * Z.of_nat k) s)).
Proof.
  induction k as [|k IH]; intros n s Hn Hheld Hpress Hrel.
  - replace (now s + 100 * Z.of_nat 0) with (now s) in Hrel by lia.
    destruct n; cbn [while_from];
      rewrite confirm_cond_spec, (is_low_false _ Hrel);
      now rewrite sent_nil, tick_0.
  - destruct n as [|n]; [lia|].
    assert (H0 : pressed w (now s)).
    { replace (now s) with (now s + 100 * Z.of_nat 0) by lia.
      apply Hpress. lia. }
    pose proof (held_ms_range s) as Hr.
    assert (Hh : held_ms (tick 100 s) = held_ms s + 100)
      by (apply held_ms_tick_small; [lia | unfold two32; simpl; lia]).
    cbn [while_from].
    rewrite confirm_cond_spec, (is_low_true _ H0), confirm_body_spec, Hh.
    destruct (500 <? held_ms s + 100) eqn:E; [apply Z.ltb_lt in E; lia|].
    rewrite IH.
    + rewrite tick_sent, sent_sent, tick_tick.
      replace (100 + 100 * Z.of_nat k) with (100 * Z.of_nat (S k)) by lia.
      reflexivity.
    + lia.
    + rewrite held_ms_sent, Hh. lia.
    + intros i Hi. simpl.
      replace (now s + 100 + 100 * Z.of_nat i)
        with (now s + 100 * Z.of_nat (S i)) by lia.
      apply Hpress. lia.
    + simpl.
      replace (now s + 100 + 100 * Z.of_nat k)
        with (now s + 100 * Z.of_nat (S k)) by lia.
      exact Hrel.
Qed.

(** The button is held at every sample until the measured time exceeds
    500: the loop ends in its [break], after [k + 1] turns. *)
Lemma confirm_loop_break :
  forall (k n : nat) (s : state),
    (k < n)%nat ->
    held_ms s + 100 * Z.of_nat k <= 500 ->
    500 < held_ms s + 100 * Z.of_nat (S k) < two32 ->
    (forall i : nat, (i <= k)%nat -> pressed w (now s + 100 * Z.of_nat i)) ->
    while_from ConfirmLoop confirm_cond confirm_body n w fuel s
    = Done tt (sent (repeat (TxStr ".") k) (tick (100 * Z.of_nat (S k)) s)).
Proof.
  induction k as [|k IH]; intros n s Hn Hle Hgt Hpress;
    (destruct n as [|n]; [lia|]);
    assert (H0 : pressed w (now s))
      by (replace (now s) with (now s + 100 * Z.of_nat 0) by lia;
          apply Hpress; lia);
    pose proof (held_ms_range s) as Hr;
    assert (Hh : held_ms (tick 100 s) = held_ms s + 100)
      by (apply held_ms_tick_small; lia);
    cbn [while_from];
    rewrite confirm_cond_spec, (is_low_true _ H0), confirm_body_spec, Hh.
  - destruct (500 <? held_ms s + 100) eqn:E; [|apply Z.ltb_ge in E; lia].
    now rewrite sent_nil.
  - destruct (500 <? held_ms s + 100) eqn:E; [apply Z.ltb_lt in E; lia|].
    rewrite IH.
    + rewrite tick_sent, sent_sent, tick_tick.
      replace (100 + 100 * Z.of_nat (S k)) with (100 * Z.of_nat (S (S k))) by lia.
      reflexivity.
    + lia.
    + rewrite held_ms_sent, Hh. lia.
    + rewrite held_ms_sent, Hh. lia.
    + intros i Hi. simpl.
      replace (now s + 100 + 100 * Z.of_nat i)
        with (now s + 100 * Z.of_nat (S i)) by lia.
      apply Hpress. lia.
Qed.

End ConfirmLoop.

Lemma first_release (w : world) (t0 : Z) (n : nat) :
  (forall i : nat, (i < n)%nat -> pressed w (t0 + 100 * Z.of_nat i)) \/
  (exists k : nat, (k < n)%nat /\
     (forall i : nat, (i < k)%nat -> pressed w (t0 + 100 * Z.of_nat i)) /\
     released w (t0 + 100 * Z.of_nat k)).
Proof.
  induction n as [|n [IH | (k & Hk & Hp & Hr)]].
  - left. intros i Hi. lia.
  - destruct (level_cases (pin_level w _PUSH (t0 + 100 * Z.of_nat n))) as [E|E].
    + left. intros i Hi.
      destruct (Nat.eq_dec i n) as [->|Hne]; [exact E | apply IH; lia].
    + right. exists n. repeat split; [lia | exact IH | exact E].
  - right. exists k. repeat split; [lia | exact Hp | exact Hr].
Qed.

Lemma check_released (w : world) (fuel k : nat) (s : state) :
  (k <= 5)%nat -> (k <= fuel)%nat ->
  (forall i : nat, (i < k)%nat -> pressed w (now s + 100 * Z.of_nat i)) ->
  released w (now s + 100 * Z.of_nat k) ->
  initial_power_on_check w fuel s
  = Done tt (after_check k (100 * Z.of_nat k) s).
Proof.
  intros Hk Hf Hp Hr.
  unfold initial_power_on_check, bind, while_, Serial_print, emit, millis,
    set_powerPressedStartTime, Serial_println_empty.
  rewrite (confirm_loop_released w fuel k); try assumption.
  - reflexivity.
  - rewrite held_ms_started by reflexivity. lia.
Qed.

Lemma check_timeout (w : world) (fuel : nat) (s : state) :
  (6 <= fuel)%nat ->
  (forall i : nat, (i <= 5)%nat -> pressed w (now s + 100 * Z.of_nat i)) ->
  initial_power_on_check w fuel s = Done tt (after_check 5 600 s).
Proof.
  intros Hf Hp.
  unfold initial_power_on_check, bind, while_, Serial_print, emit, millis,
    set_powerPressedStartTime, Serial_println_empty.
  rewrite (confirm_loop_break w fuel 5); try assumption.
  - reflexivity.
  - rewrite held_ms_started by reflexivity. lia.
  - rewrite held_ms_started by reflexivity. unfold two32. simpl. lia.
Qed.

Lemma held_ms_after_check (dots : nat) (d : Z) (s : state) :
  0 <= d < two32 -> held_ms (after_check dots d s) = d.
Proof.
  intros Hd. unfold after_check.
  rewrite !held_ms_sent, held_ms_tick.
  rewrite held_ms_started by reflexivity.
  apply Z.mod_small. exact Hd.
Qed.

(** ** [setup] *)

Lemma rx_flush (w : world) (fuel : nat) :
  forall (n : nat) (s : state),
    (length (serial_rx s) <= n)%nat ->
    while_from RxFlushLoop Serial_available (Serial_read ;; ret Continue)
      n w fuel s
    = Done tt (with_rx [] s).
Proof.
  induction n as [|n IH]; intros s Hlen.
  - destruct s as [t st gm go rx tx]. simpl in Hlen.
    destruct rx; [reflexivity | simpl in Hlen; lia].
  - destruct s as [t st gm go rx tx]. destruct rx as [|c rx].
    + reflexivity.
    + cbn [while_from Serial_available serial_rx bind Serial_read ret].
      rewrite IH; [reflexivity | simpl in *; lia].
Qed.

Lemma setup_tap (w : world) (fuel dots : nat) (d : Z) (s : state) :
  0 <= d < 500 ->
  initial_power_on_check w fuel (booted s)
    = Done tt (after_check dots d (booted s)) ->
  setup w fuel s
  = Spin PowerDownLoop
      (powered_down w fuel
        (sent [TxStr "Power button tap. Returning to off state. Powering down"; TxLn]
          (after_check dots d (booted s)))).
Proof.
  intros Hd Hcheck.
  unfold setup.
  cbn -[initial_power_on_check powerDown while_from sub32 Z.modulo two32 Z.ltb].
  fold (booted s).
  rewrite (bind_Done _ _ _ _ _ _ _ Hcheck).
  unfold bind at 1. unfold millis. unfold bind at 1.
  unfold get_powerPressedStartTime.
  fold (held_ms (after_check dots d (booted s))).
  rewrite held_ms_after_check by (unfold two32; simpl; lia).
  destruct (d <? 500) eqn:E; [|apply Z.ltb_ge in E; lia].
  apply bind_Spin. unfold bind, Serial_println, emit.
  apply powerDown_spec.
Qed.

Lemma setup_on (w : world) (fuel dots : nat) (d : Z) (s : state) :
  500 <= d < two32 ->
  (length (serial_rx s) <= fuel)%nat ->
  initial_power_on_check w fuel (booted s)
    = Done tt (after_check dots d (booted s)) ->
  setup w fuel s = Done tt (powered_on w (after_check dots d (booted s))).
Proof.
  intros Hd Hrx Hcheck.
  unfold setup.
  cbn -[initial_power_on_check powerDown while_from sub32 Z.modulo two32 Z.ltb].
  fold (booted s).
  rewrite (bind_Done _ _ _ _ _ _ _ Hcheck).
  unfold bind at 1. unfold millis. unfold bind at 1.
  unfold get_powerPressedStartTime.
  fold (held_ms (after_check dots d (booted s))).
  rewrite held_ms_after_check by lia.
  destruct (d <? 500) eqn:E; [apply Z.ltb_lt in E; lia|].
  cbn -[while_from after_check booted]. unfold while_.
  rewrite rx_flush by exact Hrx.
  rewrite !sent_sent. reflexivity.
Qed.

(** A measured time below 500 means that the loop ended by its
    condition, at one of the first five samples. *)
Lemma tap_is_early_release (w : world) (fuel : nat) (s s1 : state) :
  (6 <= fuel)%nat ->
  initial_power_on_check w fuel s = Done tt s1 ->
  held_ms s1 < 500 ->
  exists k : nat,
    (k <= 4)%nat /\
    (forall i : nat, (i < k)%nat -> pressed w (now s + 100 * Z.of_nat i)) /\
    released w (now s + 100 * Z.of_nat k).
Proof.
  intros Hfuel Hcheck Hheld.
  destruct (first_release w (now s) 6) as [Hall | (k & Hk & Hp & Hr)].
  - rewrite check_timeout in Hcheck.
    + injection Hcheck as <-.
      rewrite held_ms_after_check in Hheld by (unfold two32; simpl; lia).
      lia.
    + exact Hfuel.
    + intros i Hi. apply Hall. lia.
  - rewrite (check_released w fuel k) in Hcheck; try assumption; try lia.
    injection Hcheck as <-.
    rewrite held_ms_after_check in Hheld by (unfold two32; simpl; lia).
    exists k. repeat split; [lia | exact Hp | exact Hr].
Qed.

(** ** [loop]: the power button *)

(** One pass through lines 120-153, case by case. *)
Lemma power_button_spec (w : world) (fuel : nat) (s : state) :
  power_button w fuel s =
  let v := pin_level w _PUSH (now s) in
  let v' := pin_level w _PUSH (now s + 20) in
  let st := powerPressedStartTime s in
  if is_low v && (st =? 0) then
    if is_low v' then
      Done tt (with_start ((now s + 20) mod two32)
                (sent [TxStr "User is pressing power button. Start timer."; TxLn]
                  (tick 20 s)))
    else Done tt (tick 20 s)
  else if is_low v && (0 <? st) then
    if is_low v' then
      if 2000 <? held_ms (tick 20 s) then
        Spin PowerDownLoop
          (powered_down w fuel
            (sent [TxStr "Time to power down!"; TxLn] (tick 20 s)))
      else Done tt (tick 20 s)
    else Done tt (tick 20 s)
  else if is_high v && (0 <? st) then
    if is_high v' then
      Done tt (with_start 0
                (sent [TxStr "Power button released after ms: ";
                       TxNum (held_ms (tick 20 s)); TxLn]
                  (tick 20 s)))
    else Done tt (with_start 0 (tick 20 s))
  else Done tt s.
Proof.
  unfold power_button, bind, digitalRead, get_powerPressedStartTime, delay,
    millis, debounceDelay.
  cbn [tick now powerPressedStartTime].
  cbv zeta.
  destruct (is_low (pin_level w _PUSH (now s)) && (powerPressedStartTime s =? 0)).
  - destruct (is_low (pin_level w _PUSH (now s + 20))); reflexivity.
  - destruct (is_low (pin_level w _PUSH (now s)) && (0 <? powerPressedStartTime s)).
    + destruct (is_low (pin_level w _PUSH (now s + 20))); [|reflexivity].
      fold (held_ms (tick 20 s)).
      destruct (2000 <? held_ms (tick 20 s)); [|reflexivity].
      unfold Serial_println, emit. apply powerDown_spec.
    + destruct (is_high (pin_level w _PUSH (now s)) && (0 <? powerPressedStartTime s));
        [|reflexivity].
      destruct (is_high (pin_level w _PUSH (now s + 20))); [|reflexivity].
      unfold Serial_print, Serial_println_num, emit, set_powerPressedStartTime.
      rewrite sent_sent. reflexivity.
Qed.

(** ** [loop]: the lock test *)

Section LockLoops.

Context (w : world) (fuel : nat).

Lemma lock_wait_cond_spec (s : state) :
  lock_wait_cond w fuel s = Done (is_high (pin_level w _PUSH (now s))) s.
Proof. reflexivity. Qed.

Lemma lock_wait_body_spec (s : state) :
  lock_wait_body w fuel s = Done Continue (tick 1 s).
Proof. reflexivity. Qed.

Lemma lock_hold_body_spec (s : state) :
  lock_hold_body w fuel s =
  Done (if is_high (pin_level w _PUSH (now s + 1)) then Break else Continue)
       (tick 1 s).
Proof.
  unfold lock_hold_body, bind, delay, digitalRead. cbn [tick now].
  destruct (is_high (pin_level w _PUSH (now s + 1))); reflexivity.
Qed.

(** The button is first seen pressed at the [k]-th sample. *)
Lemma lock_wait_done :
  forall (k n : nat) (s : state),
    (k <= n)%nat ->
    (forall i : nat, (i < k)%nat -> released w (now s + Z.of_nat i)) ->
    pressed w (now s + Z.of_nat k) ->
    while_from LockWaitLoop lock_wait_cond lock_wait_body n w fuel s
    = Done tt (tick (Z.of_nat k) s).
Proof.
  induction k as [|k IH]; intros n s Hn Hrel Hpress.
  - replace (now s + Z.of_nat 0) with (now s) in Hpress by lia.
    destruct n; cbn [while_from];
      rewrite lock_wait_cond_spec, (is_high_false _ Hpress);
      now rewrite tick_0.
  - destruct n as [|n]; [lia|].
    assert (H0 : released w (now s))
      by (replace (now s) with (now s + Z.of_nat 0) by lia; apply Hrel; lia).
    cbn [while_from].
    rewrite lock_wait_cond_spec, (is_high_true _ H0), lock_wait_body_spec.
    rewrite IH.
    + rewrite tick_tick. do 2 f_equal. lia.
    + lia.
    + shift_sample Hrel.
    + cbn [tick now].
      replace (now s + 1 + Z.of_nat k) with (now s + Z.of_nat (S k)) by lia.
      exact Hpress.
Qed.

(** The button is not pressed at any of the samples the fuel allows. *)
Lemma lock_wait_spin :
  forall (n : nat) (s : state),
    (forall i : nat, (i <= n)%nat -> released w (now s + Z.of_nat i)) ->
    while_from LockWaitLoop lock_wait_cond lock_wait_body n w fuel s
    = Spin LockWaitLoop (tick (Z.of_nat n) s).
Proof.
  induction n as [|n IH]; intros s Hrel;
    assert (H0 : released w (now s))
      by (replace (now s) with (now s + Z.of_nat 0) by lia; apply Hrel; lia);
    cbn [while_from];
    rewrite lock_wait_cond_spec, (is_high_true _ H0).
  - now rewrite tick_0.
  - rewrite lock_wait_body_spec, IH.
    + rewrite tick_tick. do 2 f_equal. lia.
    + shift_sample Hrel.
Qed.

(** The button is first seen released [j] ms after the lock started. *)
Lemma lock_hold_done :
  forall (j n : nat) (s : state),
    (S j <= n)%nat ->
    (forall i : nat, (0 < i <= j)%nat -> pressed w (now s + Z.of_nat i)) ->
    released w (now s + Z.of_nat (S j)) ->
    while_from LockHoldLoop (ret true) lock_hold_body n w fuel s
    = Done tt (tick (Z.of_nat (S j)) s).
Proof.
  induction j as [|j IH]; intros n s Hn Hpress Hrel;
    (destruct n as [|n]; [lia|]);
    cbn [while_from ret]; rewrite lock_hold_body_spec.
  - replace (now s + Z.of_nat 1) with (now s + 1) in Hrel by lia.
    rewrite (is_high_true _ Hrel). reflexivity.
  - assert (H1 : pressed w (now s + 1))
      by (replace (now s + 1) with (now s + Z.of_nat 1) by lia;
          apply Hpress; lia).
    rewrite (is_high_false _ H1), IH.
    + rewrite tick_tick. do 2 f_equal. lia.
    + lia.
    + shift_sample Hpress.
    + cbn [tick now].
      replace (now s + 1 + Z.of_nat (S j)) with (now s + Z.of_nat (S (S j))) by lia.
      exact Hrel.
Qed.

(** The button stays pressed at all the samples the fuel allows. *)
Lemma lock_hold_spin :
  forall (n : nat) (s : state),
    (forall i : nat, (0 < i <= n)%nat -> pressed w (now s + Z.of_nat i)) ->
    while_from LockHoldLoop (ret true) lock_hold_body n w fuel s
    = Spin LockHoldLoop (tick (Z.of_nat n) s).
Proof.
  induction n as [|n IH]; intros s Hpress; cbn [while_from ret].
  - now rewrite tick_0.
  - assert (H1 : pressed w (now s + 1))
      by (replace (now s + 1) with (now s + Z.of_nat 1) by lia;
          apply Hpress; lia).
    rewrite lock_hold_body_spec, (is_high_false _ H1), IH.
    + rewrite tick_tick. do 2 f_equal. lia.
    + shift_sample Hpress.
Qed.

End LockLoops.

Lemma lock_test_done (w : world) (fuel k j : nat) (s : state) :
  (k <= fuel)%nat -> (S j <= fuel)%nat ->
  (forall i : nat, (i < k)%nat -> released w (now s + Z.of_nat i)) ->
  pressed w (now s + Z.of_nat k) ->
  (forall i : nat, (0 < i <= j)%nat ->
     pressed w (now s + Z.of_nat k + Z.of_nat i)) ->
  released w (now s + Z.of_nat k + Z.of_nat (S j)) ->
  lock_test w fuel s
  = Done tt (after_lock (Z.of_nat k) (Z.of_nat (S j)) s).
Proof.
  intros Hk Hj Hrel Hpress Hheld Hrel'.
  unfold lock_test, while_.
  unfold bind at 1. unfold Serial_println at 1, emit.
  erewrite bind_Done by (apply (lock_wait_done w fuel k); assumption).
  unfold bind at 1, millis. unfold bind at 1, set_powerPressedStartTime.
  unfold bind at 1. unfold Serial_println at 1, emit.
  erewrite bind_Done by (apply (lock_hold_done w fuel j); assumption).
  reflexivity.
Qed.

Lemma lock_test_waiting (w : world) (fuel : nat) (s : state) :
  (forall i : nat, (i <= fuel)%nat -> released w (now s + Z.of_nat i)) ->
  lock_test w fuel s
  = Spin LockWaitLoop
      (tick (Z.of_nat fuel)
        (sent [TxStr "System locked. Now hold power button to force power down without using software"; TxLn]
          s)).
Proof.
  intros Hrel.
  unfold lock_test, while_.
  unfold bind at 1. unfold Serial_println at 1, emit.
  apply bind_Spin. apply lock_wait_spin. exact Hrel.
Qed.

Lemma lock_test_holding (w : world) (fuel k : nat) (s : state) :
  (k <= fuel)%nat ->
  (forall i : nat, (i < k)%nat -> released w (now s + Z.of_nat i)) ->
  pressed w (now s + Z.of_nat k) ->
  (forall i : nat, (0 < i <= fuel)%nat ->
     pressed w (now s + Z.of_nat k + Z.of_nat i)) ->
  lock_test w fuel s
  = Spin LockHoldLoop (tick (Z.of_nat fuel) (lock_armed (Z.of_nat k) s)).
Proof.
  intros Hk Hrel Hpress Hheld.
  unfold lock_test, while_.
  unfold bind at 1. unfold Serial_println at 1, emit.
  erewrite bind_Done by (apply (lock_wait_done w fuel k); assumption).
  unfold bind at 1, millis. unfold bind at 1, set_powerPressedStartTime.
  unfold bind at 1. unfold Serial_println at 1, emit.
  apply bind_Spin. apply (lock_hold_spin w fuel fuel). exact Hheld.
Qed.

(** ** [loop]: the console commands *)

Lemma serial_commands_none (w : world) (fuel : nat) (s : state) :
  serial_rx s = [] -> serial_commands w fuel s = Done tt s.
Proof.
  intros E. unfold serial_commands, bind, Serial_available.
  rewrite E. reflexivity.
Qed.

Lemma serial_commands_z (w : world) (fuel : nat) (s : state) rest :
  serial_rx s = "z"%char :: rest ->
  serial_commands w fuel s
  = Spin PowerDownLoop
      (powered_down w fuel (sent [TxStr "Power down"; TxLn] (with_rx rest s))).
Proof.
  intros E. unfold serial_commands, bind, Serial_available, Serial_read.
  rewrite !E.
  change (to_char (Z.of_N (N_of_ascii "z")) =? char_lit "z") with true.
  cbv iota beta. unfold Serial_println, emit. apply powerDown_spec.
Qed.

Lemma serial_commands_r (w : world) (fuel : nat) (s : state) rest :
  serial_rx s = "r"%char :: rest ->
  serial_commands w fuel s = lock_test w fuel (with_rx rest s).
Proof.
  intros E. unfold serial_commands, bind, Serial_available, Serial_read.
  rewrite !E. reflexivity.
Qed.

(** ** [loop]: one call, case by case *)

(** A call of [loop] with nothing on the console is a pass through the
    power-button code. *)
Lemma loop_quiet (w : world) (fuel : nat) (s : state) :
  serial_rx s = [] -> loop w fuel s = power_button w fuel s.
Proof.
  intros E. unfold loop.
  now rewrite (bind_Done _ _ _ _ _ _ _ (serial_commands_none w fuel s E)).
Qed.

Lemma timer_running_tests (st : Z) :
  0 < st -> (st =? 0) = false /\ (0 <? st) = true.
Proof. intros H. split; [apply Z.eqb_neq | apply Z.ltb_lt]; lia. Qed.

(** The button is held and the timer runs, the measured time is at most
    2000: the call does nothing but wait the debounce delay. *)
Lemma loop_hold (w : world) (fuel : nat) (s : state) :
  serial_rx s = [] -> 0 < powerPressedStartTime s ->
  pressed w (now s) -> pressed w (now s + 20) ->
  held_ms (tick 20 s) <= 2000 ->
  loop w fuel s = Done tt (tick 20 s).
Proof.
  intros Hrx Hst Hp Hp' Hheld.
  destruct (timer_running_tests _ Hst) as [E0 E1].
  rewrite (loop_quiet _ _ _ Hrx), power_button_spec. cbv zeta.
  rewrite (is_low_true _ Hp), (is_low_true _ Hp'), E0, E1.
  cbn [andb].
  destruct (2000 <? held_ms (tick 20 s)) eqn:E; [apply Z.ltb_lt in E; lia|].
  reflexivity.
Qed.

(** The same, with a measured time above 2000: the call powers down. *)
Lemma loop_hold_powers_down (w : world) (fuel : nat) (s : state) :
  serial_rx s = [] -> 0 < powerPressedStartTime s ->
  pressed w (now s) -> pressed w (now s + 20) ->
  2000 < held_ms (tick 20 s) ->
  loop w fuel s
  = Spin PowerDownLoop
      (powered_down w fuel (sent [TxStr "Time to power down!"; TxLn] (tick 20 s))).
Proof.
  intros Hrx Hst Hp Hp' Hheld.
  destruct (timer_running_tests _ Hst) as [E0 E1].
  rewrite (loop_quiet _ _ _ Hrx), power_button_spec. cbv zeta.
  rewrite (is_low_true _ Hp), (is_low_true _ Hp'), E0, E1.
  cbn [andb].
  destruct (2000 <? held_ms (tick 20 s)) eqn:E; [|apply Z.ltb_ge in E; lia].
  reflexivity.
Qed.

(** The button is held at the poll and released at the second sample:
    the call does nothing but wait the debounce delay. *)
Lemma loop_hold_then_released (w : world) (fuel : nat) (s : state) :
  serial_rx s = [] -> 0 < powerPressedStartTime s ->
  pressed w (now s) -> released w (now s + 20) ->
  loop w fuel s = Done tt (tick 20 s).
Proof.
  intros Hrx Hst Hp Hr.
  destruct (timer_running_tests _ Hst) as [E0 E1].
  rewrite (loop_quiet _ _ _ Hrx), power_button_spec. cbv zeta.
  rewrite (is_low_true _ Hp), (is_low_false _ Hr), E0, E1.
  reflexivity.
Qed.

(** The button is released at the poll and the timer runs: the call
    resets the timer, whatever the second sample reads. *)
Lemma loop_released (w : world) (fuel : nat) (s : state) :
  serial_rx s = [] -> 0 < powerPressedStartTime s ->
  released w (now s) ->
  exists s',
    loop w fuel s = Done tt s' /\
    powerPressedStartTime s' = 0 /\
    now s' = now s + 20 /\
    gpio_out s' = gpio_out s /\
    gpio_mode s' = gpio_mode s /\
    serial_rx s' = serial_rx s.
Proof.
  intros Hrx Hst Hr.
  destruct (timer_running_tests _ Hst) as [E0 E1].
  rewrite (loop_quiet _ _ _ Hrx), power_button_spec. cbv zeta.
  rewrite (is_low_false _ Hr), (is_high_true _ Hr), E1.
  cbn [andb].
  destruct (is_high (pin_level w _PUSH (now s + 20)));
    eexists; (split; [reflexivity|]); cbn; repeat split.
Qed.

(** The boundary of the power-down threshold: a measured time of exactly
    2000 ms does not power down. *)
Lemma loop_hold_exactly_2000 (w : world) (fuel : nat) (s : state) :
  serial_rx s = [] -> 0 < powerPressedStartTime s ->
  pressed w (now s) -> pressed w (now s + 20) ->
  held_ms (tick 20 s) = 2000 ->
  loop w fuel s = Done tt (tick 20 s).
Proof.
  intros Hrx Hst Hp Hp' Hheld. apply loop_hold; try assumption. lia.
Qed.

(** A release that lasts less than the debounce delay still resets the
    timer: the reset of line 152 does not depend on the second sample. *)
Lemma loop_release_flicker (w : world) (fuel : nat) (s : state) :
  serial_rx s = [] -> 0 < powerPressedStartTime s ->
  released w (now s) -> pressed w (now s + 20) ->
  loop w fuel s = Done tt (with_start 0 (tick 20 s)).
Proof.
  intros Hrx Hst Hr Hp.
  destruct (timer_running_tests _ Hst) as [E0 E1].
  rewrite (loop_quiet _ _ _ Hrx), power_button_spec. cbv zeta.
  rewrite (is_low_false _ Hr), (is_high_true _ Hr), (is_high_false _ Hp), E1.
  reflexivity.
Qed.

(** A press that lasts less than the debounce delay does not start the
    timer. *)
Lemma loop_press_flicker (w : world) (fuel : nat) (s : state) :
  serial_rx s = [] -> powerPressedStartTime s = 0 ->
  pressed w (now s) -> released w (now s + 20) ->
  loop w fuel s = Done tt (tick 20 s).
Proof.
  intros Hrx Hst Hp Hr.
  rewrite (loop_quiet _ _ _ Hrx), power_button_spec. cbv zeta.
  rewrite (is_low_true _ Hp), (is_low_false _ Hr), Hst.
  reflexivity.
Qed.

(** ** The press timer between polls *)




Lemma mod_two32_range (t : Z) : 0 <= t mod two32 < two32.
Proof. apply Z.mod_pos_bound, two32_pos. Qed.




(** ** The properties of the specification *)

(** C1.  The sketch run on the board whose button is held from reset
    until 2630 ms.  The timer starts at 620 ms.  After 101 calls of
    [loop] the clock reads 2620 ms, the button is still pressed and the
    measured time is exactly 2000 ms, yet the call has returned and OFF
    has not been driven; the button is then released and the timer reset,
    and no power-down has taken place.  (On a board whose button stays
    pressed the 102nd call measures 2020 ms and powers down.) *)
Theorem hold_of_2000ms_does_not_power_down :
  let w := held_until 2630 in
  let started := sketch 1 w 10%nat (reset_state 0) in
  let at_2000 := sketch 101 w 10%nat (reset_state 0) in
  let after := sketch 103 w 10%nat (reset_state 0) in
  powerPressedStartTime (final_state started) = 620 /\
  returned at_2000 = true /\
  now (final_state at_2000) = 2620 /\
  held_ms (final_state at_2000) = 2000 /\
  pressed w 2620 /\
  gpio_out (final_state at_2000) !! _OFF = None /\
  returned after = true /\
  gpio_out (final_state after) !! _OFF = None /\
  powerPressedStartTime (final_state after) = 0 /\
  spinning_in (sketch 102 (held_until 5000) 10%nat (reset_state 0))
    = Some PowerDownLoop.
Proof. vm_compute. repeat split. Qed.

(** C2.  A tap at power-on turns the system off again.  When the button
    is first sampled released at the [k]-th poll of the confirmation loop
    with [k <= 4], the duration [setup] measures is [100 * k] ms, less
    than 500, and [setup] goes straight into [powerDown]: the OFF pin is
    made an output and driven HIGH, the status LED is never switched on
    and the message of normal operation is never printed. *)
Theorem setup_tap_powers_down (w : world) (fuel k : nat) (s : state) :
  (k <= 4)%nat -> (k <= fuel)%nat ->
  (forall i : nat, (i < k)%nat -> pressed w (now s + 100 * Z.of_nat i)) ->
  released w (now s + 100 * Z.of_nat k) ->
  exists s1 s',
    initial_power_on_check w fuel (booted s) = Done tt s1 /\
    held_ms s1 = 100 * Z.of_nat k /\ held_ms s1 < 500 /\
    setup w fuel s = Spin PowerDownLoop s' /\
    gpio_out s' !! _OFF = Some HIGH /\
    gpio_mode s' !! _OFF = Some OUTPUT /\
    gpio_out s' = <[_OFF := HIGH]> (<[STAT_LED w := LOW]> (gpio_out s)) /\
    gpio_mode s'
      = <[_OFF := OUTPUT]> (<[_PUSH := INPUT_PULLUP]> (gpio_mode s)) /\
    now s' = now s + 100 * Z.of_nat k + Z.of_nat fuel /\
    serial_tx s' =
      serial_tx s ++
      [TxStr "Soft Power Switch Mk2 example"; TxLn;
       TxStr "Initial power on check"] ++ repeat (TxStr ".") k ++
      [TxLn;
       TxStr "Power button tap. Returning to off state. Powering down"; TxLn;
       TxStr "Pulling OFF high"; TxLn].
Proof.
  intros Hk Hfuel Hp Hr.
  assert (Hcheck : initial_power_on_check w fuel (booted s)
                   = Done tt (after_check k (100 * Z.of_nat k) (booted s)))
    by (apply check_released; try assumption; lia).
  assert (Hd : 0 <= 100 * Z.of_nat k < 500) by lia.
  do 2 eexists. split; [exact Hcheck|].
  rewrite held_ms_after_check by (unfold two32; simpl; lia).
  split; [reflexivity|]. split; [lia|].
  split; [apply (setup_tap w fuel k _ s Hd Hcheck)|].
  cbn. repeat split.
  - apply lookup_insert_eq.
  - apply lookup_insert_eq.
  - rewrite <- !app_assoc. reflexivity.
Qed.

(** C3.  A press that lasts confirms the power-on.  When the button is
    still sampled pressed 500 ms after the check started (and at the
    polls before), [setup] returns, 600 ms after it started, with the
    press timer reset to 0, the status LED switched on, the receive
    buffer emptied and no other output touched. *)
Theorem setup_held_runs (w : world) (fuel : nat) (s : state) :
  (6 <= fuel)%nat ->
  (length (serial_rx s) <= fuel)%nat ->
  (forall i : nat, (i <= 5)%nat -> pressed w (now s + 100 * Z.of_nat i)) ->
  exists s',
    setup w fuel s = Done tt s' /\
    powerPressedStartTime s' = 0 /\
    now s' = now s + 600 /\
    gpio_out s' = <[STAT_LED w := HIGH]> (gpio_out s) /\
    gpio_mode s' = <[STAT_LED w := OUTPUT]> (<[_PUSH := INPUT_PULLUP]> (gpio_mode s)) /\
    serial_rx s' = [].
Proof.
  intros Hfuel Hrx Hp.
  assert (Hcheck : initial_power_on_check w fuel (booted s)
                   = Done tt (after_check 5 600 (booted s)))
    by (apply check_timeout; assumption).
  eexists. split.
  - apply (setup_on w fuel 5 600 s); [unfold two32; simpl; lia | exact Hrx | exact Hcheck].
  - cbn. repeat split.
Qed.

(** C4.  A press shorter than 2000 ms, then a release, has no effect on
    the power.  The timer runs in [s]; the button is sampled pressed at
    the polls of the next [n] calls of [loop] and at the poll after them,
    the time measured at the last of these samples being less than 2000,
    and it is sampled released 20 ms later.  Then the [n + 2] calls all
    return, no output is changed (OFF is not driven) and the timer is
    back to 0. *)
Theorem short_press_no_power_action (w : world) (fuel : nat) :
  forall (n : nat) (s : state),
    serial_rx s = [] ->
    0 < powerPressedStartTime s ->
    held_ms s + 20 * Z.of_nat n < 2000 ->
    (forall i : nat, (i <= n)%nat -> pressed w (now s + 20 * Z.of_nat i)) ->
    released w (now s + 20 * Z.of_nat (S n)) ->
    exists s',
      loops (n + 2) w fuel s = Done tt s' /\
      powerPressedStartTime s' = 0 /\
      gpio_out s' = gpio_out s /\
      gpio_mode s' = gpio_mode s /\
      now s' = now s + 20 * Z.of_nat (n + 2).
Proof.
  induction n as [|n IH]; intros s Hrx Hst Hheld Hp Hr.
  - assert (H0 : pressed w (now s))
      by (replace (now s) with (now s + 20 * Z.of_nat 0) by lia;
          apply Hp; lia).
    replace (now s + 20 * Z.of_nat 1) with (now s + 20) in Hr by lia.
    destruct (loop_released w fuel (tick 20 s)) as (s' & E & Hs' & Ht & Ho & Hm & _);
      try assumption.
    exists s'. split.
    + cbn [Nat.add loops].
      rewrite (bind_Done _ _ _ _ _ _ _ (loop_hold_then_released w fuel s Hrx Hst H0 Hr)).
      rewrite (bind_Done _ _ _ _ _ _ _ E). reflexivity.
    + rewrite Hs', Ho, Hm, Ht. cbn. repeat split. lia.
  - assert (H0 : pressed w (now s))
      by (replace (now s) with (now s + 20 * Z.of_nat 0) by lia;
          apply Hp; lia).
    assert (H1 : pressed w (now s + 20))
      by (replace (now s + 20) with (now s + 20 * Z.of_nat 1) by lia;
          apply Hp; lia).
    pose proof (held_ms_range s) as Hrange.
    assert (Hh : held_ms (tick 20 s) = held_ms s + 20)
      by (apply held_ms_tick_small; [lia | unfold two32; simpl; lia]).
    destruct (IH (tick 20 s)) as (s' & E & Hs' & Ho & Hm & Ht).
    + exact Hrx.
    + exact Hst.
    + rewrite Hh. lia.
    + intros i Hi. cbn [tick now].
      replace (now s + 20 + 20 * Z.of_nat i)
        with (now s + 20 * Z.of_nat (S i)) by lia.
      apply Hp. lia.
    + cbn [tick now].
      replace (now s + 20 + 20 * Z.of_nat (S n))
        with (now s + 20 * Z.of_nat (S (S n))) by lia.
      exact Hr.
    + exists s'. split.
      * cbn [Nat.add loops].
        rewrite (bind_Done _ _ _ _ _ _ _
                   (loop_hold w fuel s Hrx Hst H0 H1 ltac:(lia))).
        exact E.
      * rewrite Hs', Ho, Hm, Ht. cbn. repeat split. lia.
Qed.



(** C6.  The sketch run on the board whose button is held from reset on,
    but for a glitch from 1000 to 1010 ms.  The timer starts at 620 ms;
    the 21st call of [loop] polls at 1000 ms, reads released, and returns
    at 1020 ms, where the button reads pressed again, with the timer
    reset to 0.  The hold is then timed from 1040 ms on: the 102nd call,
    which powers down on the board without the glitch, returns. *)
Theorem release_flicker_resets_timer :
  let w := held_except 1000 1010 in
  let before := sketch 20 w 10%nat (reset_state 0) in
  let glitch := sketch 21 w 10%nat (reset_state 0) in
  powerPressedStartTime (final_state before) = 620 /\
  now (final_state before) = 1000 /\
  released w 1000 /\ pressed w 1020 /\
  returned glitch = true /\
  now (final_state glitch) = 1020 /\
  powerPressedStartTime (final_state glitch) = 0 /\
  powerPressedStartTime (final_state (sketch 22 w 10%nat (reset_state 0))) = 1040 /\
  returned (sketch 102 w 10%nat (reset_state 0)) = true /\
  spinning_in (sketch 102 (held_until 5000) 10%nat (reset_state 0))
    = Some PowerDownLoop.
Proof. vm_compute. repeat split. Qed.

(** C7.  Once [powerDown] is entered the monitor is terminal: whatever
    number of turns its final loop is given, control is still inside that
    loop and never returns, so nothing that follows the call runs; the
    OFF line has been driven HIGH (and the pin made an output) and no
    later turn changes an output or the console: one more turn only lets
    one more millisecond pass.  None of this depends on the input lines. *)
Theorem powerDown_is_terminal (w : world) (fuel : nat) (s : state)
    (k : unit -> M unit) (lines : Z -> Z -> level) :
  let r := powerDown w fuel s in
  spinning_in r = Some PowerDownLoop /\
  returned r = false /\
  bind powerDown k w fuel s = r /\
  powerDown {| LED_BUILTIN := LED_BUILTIN w; pin_level := lines |} fuel s = r /\
  powerDown w (S fuel) s = Spin PowerDownLoop (tick 1 (final_state r)) /\
  gpio_out (final_state r) !! _OFF = Some HIGH /\
  gpio_mode (final_state r) !! _OFF = Some OUTPUT /\
  gpio_out (final_state r)
    = <[_OFF := HIGH]> (<[STAT_LED w := LOW]> (gpio_out s)) /\
  serial_tx (final_state r) = serial_tx s ++ [TxStr "Pulling OFF high"; TxLn] /\
  serial_rx (final_state r) = serial_rx s /\
  now (final_state r) = now s + Z.of_nat fuel.
Proof.
  cbv zeta. rewrite (bind_Spin _ _ _ _ _ _ _ (powerDown_spec w fuel s)).
  rewrite !powerDown_spec.
  cbn [spinning_in returned final_state].
  repeat split.
  - unfold powered_down. rewrite tick_tick. do 2 f_equal. lia.
  - cbn. apply lookup_insert_eq.
  - cbn. apply lookup_insert_eq.
Qed.

(** C8.  A single character on the console forces a power-down: when the
    next character received is 'z', the call of [loop] goes straight into
    [powerDown] (no delay comes first: the time spent is that of the
    final loop alone) and the OFF line is driven HIGH. *)
Theorem console_z_powers_down (w : world) (fuel : nat) (s : state)
    (rest : list ascii) :
  serial_rx s = "z"%char :: rest ->
  exists s',
    loop w fuel s = Spin PowerDownLoop s' /\
    gpio_out s' !! _OFF = Some HIGH /\
    gpio_mode s' !! _OFF = Some OUTPUT /\
    now s' = now s + Z.of_nat fuel /\
    serial_tx s' = serial_tx s ++ [TxStr "Power down"; TxLn;
                                   TxStr "Pulling OFF high"; TxLn].
Proof.
  intros Hrx. eexists. split.
  - unfold loop. apply bind_Spin. apply serial_commands_z. exact Hrx.
  - cbn. repeat split.
    + apply lookup_insert_eq.
    + apply lookup_insert_eq.
    + now rewrite <- app_assoc.
Qed.

(** C9.  The confirmation phase of [setup] always ends: whatever the
    input does, with six turns allowed the check returns, at most 600 ms
    after it started; with the button held for ever it returns exactly
    600 ms after it started. *)
Theorem initial_power_on_check_terminates (w : world) (fuel : nat) (s : state) :
  (6 <= fuel)%nat ->
  exists s',
    initial_power_on_check w fuel s = Done tt s' /\
    now s <= now s' <= now s + 600 /\
    ((forall t, pressed w t) -> now s' = now s + 600).
Proof.
  intros Hfuel.
  destruct (first_release w (now s) 6) as [Hall | (k & Hk & Hp & Hr)].
  - exists (after_check 5 600 s). split; [|split].
    + apply check_timeout; [exact Hfuel|]. intros i Hi. apply Hall. lia.
    + cbn. lia.
    + intros _. reflexivity.
  - exists (after_check k (100 * Z.of_nat k) s). split; [|split].
    + apply check_released; try assumption; lia.
    + cbn. lia.
    + intros Hheld. specialize (Hheld (now s + 100 * Z.of_nat k)).
      unfold pressed, released in *. congruence.
Qed.

(** C10.  The lock of the console command 'r' can be left by releasing
    the button.  Let the button be first sampled pressed [k] ms after the
    command is read, and first sampled released [j + 1] ms after that.
    While the lock waits for the press the timer is not touched; the lock
    starts timing at the sample that reads pressed, not before; and the
    call of [loop] returns at the sample that reads released, with the
    timer reset to 0 and no output changed (OFF is not driven). *)
Theorem lock_test_escapable (w : world) (fuel k j : nat) (s : state)
    (rest : list ascii) :
  serial_rx s = "r"%char :: rest ->
  (forall i : nat, (i < k)%nat -> released w (now s + Z.of_nat i)) ->
  pressed w (now s + Z.of_nat k) ->
  (forall i : nat, (0 < i <= j)%nat ->
     pressed w (now s + Z.of_nat k + Z.of_nat i)) ->
  released w (now s + Z.of_nat k + Z.of_nat (S j)) ->
  (k <= fuel)%nat -> (S j <= fuel)%nat ->
  (forall n : nat, (n < k)%nat ->
     exists s1, loop w n s = Spin LockWaitLoop s1 /\
                powerPressedStartTime s1 = powerPressedStartTime s) /\
  (forall n : nat, (k <= n <= j)%nat ->
     exists s1, loop w n s = Spin LockHoldLoop s1 /\
                powerPressedStartTime s1 = (now s + Z.of_nat k) mod two32) /\
  exists s',
    loop w fuel s = Done tt s' /\
    now s' = now s + Z.of_nat k + Z.of_nat (S j) /\
    powerPressedStartTime s' = 0 /\
    gpio_out s' = gpio_out s /\
    gpio_mode s' = gpio_mode s /\
    serial_rx s' = rest.
Proof.
  intros Hrx Hrel Hpress Hheld Hrel' Hk Hj.
  split; [|split].
  - intros n Hn. eexists. split.
    + unfold loop. apply bind_Spin.
      rewrite (serial_commands_r _ _ _ _ Hrx).
      apply lock_test_waiting. intros i Hi. apply Hrel. lia.
    + reflexivity.
  - intros n Hn. eexists. split.
    + unfold loop. apply bind_Spin.
      rewrite (serial_commands_r _ _ _ _ Hrx).
      apply (lock_test_holding w n k); try assumption; [lia|].
      intros i Hi. apply Hheld. lia.
    + reflexivity.
  - exists (after_lock (Z.of_nat k) (Z.of_nat (S j)) (with_rx rest s)).
    split.
    + unfold loop. erewrite bind_Done.
      2:{ rewrite (serial_commands_r _ _ _ _ Hrx).
          apply (lock_test_done w fuel k j); assumption. }
      rewrite power_button_spec. cbv zeta.
      cbn [after_lock lock_armed with_start sent tick with_rx now
           powerPressedStartTime].
      rewrite (is_low_false _ Hrel'), (is_high_true _ Hrel').
      reflexivity.
    + cbn. repeat split.
Qed.

(** ** The theorems at concrete inputs *)

(** The command 'z' alone in the receive buffer. *)
Lemma console_z_powers_down_witness :
  exists s',
    loop (held_until 0) 3%nat (with_rx ["z"%char] (reset_state 1000))
      = Spin PowerDownLoop s' /\
    gpio_out s' !! _OFF = Some HIGH.
Proof.
  destruct (console_z_powers_down (held_until 0) 3
              (with_rx ["z"%char] (reset_state 1000)) [] eq_refl)
    as (s' & H1 & H2 & _).
  exists s'. split; assumption.
Defined.

(** The confirmation check with the button stuck. *)
Lemma initial_power_on_check_terminates_witness :
  exists s',
    initial_power_on_check stuck_button 6%nat (reset_state 0) = Done tt s' /\
    now s' = 600.
Proof.
  destruct (initial_power_on_check_terminates stuck_button 6 (reset_state 0)
              (le_n 6))
    as (s' & H1 & _ & H3).
  exists s'. split; [exact H1|].
  apply H3. intros t. reflexivity.
Defined.

(** A power-on with the button released after 250 ms:
    the sample at 300 ms is the first that reads released. *)
Lemma setup_tap_powers_down_witness :
  exists s',
    setup (held_until 250) 5%nat (reset_state 0) = Spin PowerDownLoop s' /\
    gpio_out s' !! _OFF = Some HIGH /\
    gpio_mode s' !! _OFF = Some OUTPUT.
Proof.
  destruct (setup_tap_powers_down (held_until 250) 5 3 (reset_state 0))
    as (s1 & s' & _ & _ & _ & H1 & H2 & H3 & _).
  - lia.
  - lia.
  - intros i Hi. sample_cases i.
  - reflexivity.
  - exists s'. repeat split; assumption.
Defined.

(** A power-on with the button released after 550 ms. *)
Lemma setup_held_runs_witness :
  exists s',
    setup (held_until 550) 6%nat (reset_state 0) = Done tt s' /\
    powerPressedStartTime s' = 0 /\
    now s' = 600.
Proof.
  destruct (setup_held_runs (held_until 550) 6 (reset_state 0))
    as (s' & H1 & H2 & H3 & _).
  - lia.
  - simpl. lia.
  - intros i Hi. sample_cases i.
  - exists s'. repeat split; assumption.
Defined.

(** The lock with the button pressed from 3 ms to 8 ms
    after the command 'r' is read. *)
Lemma lock_test_escapable_witness :
  exists s',
    loop (pressed_between 3 8) 5%nat (with_rx ["r"%char] (reset_state 0))
      = Done tt s' /\
    now s' = 8 /\
    powerPressedStartTime s' = 0 /\
    gpio_out s' = ∅.
Proof.
  destruct (lock_test_escapable (pressed_between 3 8) 5 3 4
              (with_rx ["r"%char] (reset_state 0)) [])
    as (_ & _ & s' & H1 & H2 & H3 & H4 & _).
  - reflexivity.
  - intros i Hi. sample_cases i.
  - reflexivity.
  - intros i Hi. sample_cases i.
  - reflexivity.
  - lia.
  - lia.
  - exists s'. repeat split; assumption.
Defined.

(** A short press, with the timer started at 620 ms and
    the button released after 650 ms. *)
Lemma short_press_no_power_action_witness :
  exists s',
    loops 3 (held_until 650) 2%nat (with_start 620 (reset_state 620)) = Done tt s' /\
    powerPressedStartTime s' = 0 /\
    gpio_out s' = ∅.
Proof.
  destruct (short_press_no_power_action (held_until 650) 2 1
              (with_start 620 (reset_state 620)))
    as (s' & H1 & H2 & H3 & _).
  - reflexivity.
  - reflexivity.
  - reflexivity.
  - intros i Hi. sample_cases i.
  - reflexivity.
  - exists s'. repeat split; assumption.
Defined.


(** ** Statements that leave the power alone *)

Lemma frame_refl (s : state) : frame s s.
Proof.
  repeat split; [lia|]. exists []. symmetry. apply app_nil_r.
Qed.

Lemma frame_trans (s1 s2 s3 : state) :
  frame s1 s2 -> frame s2 s3 -> frame s1 s3.
Proof.
  intros (Ho & Hm & Ht & l & Hl) (Ho' & Hm' & Ht' & l' & Hl').
  repeat split; [congruence | congruence | lia |].
  exists (l ++ l'). rewrite Hl', Hl. symmetry. apply app_assoc.
Qed.

Lemma frame_tick (d : Z) (s : state) : 0 <= d -> frame s (tick d s).
Proof.
  intros Hd. repeat split; [cbn; lia|]. exists []. symmetry. apply app_nil_r.
Qed.

Lemma frame_sent (items : list tx_item) (s : state) : frame s (sent items s).
Proof. repeat split; [cbn; lia|]. exists items. reflexivity. Qed.

Lemma frame_with_start (v : Z) (s : state) : frame s (with_start v s).
Proof.
  repeat split; [cbn; lia|]. exists []. symmetry. apply app_nil_r.
Qed.

Lemma frame_with_rx (rx : list ascii) (s : state) : frame s (with_rx rx s).
Proof.
  repeat split; [cbn; lia|]. exists []. symmetry. apply app_nil_r.
Qed.

Section Quiet.

Context {A B : Type}.

Lemma quiet_ret (a : A) : quiet (ret a).
Proof. intros w fuel s. split; [discriminate | apply frame_refl]. Qed.

Lemma quiet_bind (c : M A) (k : A -> M B) :
  quiet c -> (forall a, quiet (k a)) -> quiet (bind c k).
Proof.
  intros Hc Hk w fuel s. unfold bind.
  destruct (Hc w fuel s) as [Hpd Hfr].
  destruct (c w fuel s) as [a s1 | l s1].
  - destruct (Hk a w fuel s1) as [Hpd' Hfr']. split; [exact Hpd'|].
    exact (frame_trans _ _ _ Hfr Hfr').
  - split; assumption.
Qed.

End Quiet.

Lemma quiet_while_from (l : loop_id) (cond : M bool) (body : M ctl) :
  l <> PowerDownLoop -> quiet cond -> quiet body ->
  forall (n : nat) (w : world) (fuel : nat) (s : state),
    spinning_in (while_from l cond body n w fuel s) <> Some PowerDownLoop /\
    frame s (final_state (while_from l cond body n w fuel s)).
Proof.
  intros Hl Hcond Hbody.
  induction n as [|n IH]; intros w fuel s; cbn [while_from];
    destruct (Hcond w fuel s) as [Hpd Hfr];
    destruct (cond w fuel s) as [[|] s1 | l1 s1];
    try (split; assumption).
  - split; [cbn; congruence | exact Hfr].
  - destruct (Hbody w fuel s1) as [Hpd' Hfr'].
    destruct (body w fuel s1) as [[|] s2 | l2 s2].
    + destruct (IH w fuel s2) as [Hpd2 Hfr2]. split; [exact Hpd2|].
      exact (frame_trans _ _ _ Hfr (frame_trans _ _ _ Hfr' Hfr2)).
    + split; [discriminate | exact (frame_trans _ _ _ Hfr Hfr')].
    + split; [exact Hpd' | exact (frame_trans _ _ _ Hfr Hfr')].
Qed.

Lemma quiet_while (l : loop_id) (cond : M bool) (body : M ctl) :
  l <> PowerDownLoop -> quiet cond -> quiet body -> quiet (while_ l cond body).
Proof.
  intros Hl Hcond Hbody w fuel s. unfold while_.
  apply quiet_while_from; assumption.
Qed.

Lemma quiet_millis : quiet millis.
Proof. intros w fuel s. split; [discriminate | apply frame_refl]. Qed.

Lemma quiet_delay (d : Z) : 0 <= d -> quiet (delay d).
Proof. intros Hd w fuel s. split; [discriminate | now apply frame_tick]. Qed.

Lemma quiet_digitalRead (pin : Z) : quiet (digitalRead pin).
Proof. intros w fuel s. split; [discriminate | apply frame_refl]. Qed.

Lemma quiet_get_timer : quiet get_powerPressedStartTime.
Proof. intros w fuel s. split; [discriminate | apply frame_refl]. Qed.

Lemma quiet_set_timer (v : Z) : quiet (set_powerPressedStartTime v).
Proof. intros w fuel s. split; [discriminate | apply frame_with_start]. Qed.

Lemma quiet_emit (items : list tx_item) : quiet (emit items).
Proof. intros w fuel s. split; [discriminate | apply frame_sent]. Qed.

Lemma quiet_Serial_available : quiet Serial_available.
Proof. intros w fuel s. split; [discriminate | apply frame_refl]. Qed.

Lemma quiet_Serial_read : quiet Serial_read.
Proof.
  intros w fuel s. unfold Serial_read.
  destruct (serial_rx s);
    (split; [discriminate | first [apply frame_refl | apply frame_with_rx]]).
Qed.

Create HintDb quiet_db.

#[local] Hint Resolve quiet_ret quiet_millis quiet_digitalRead quiet_get_timer
  quiet_set_timer quiet_emit quiet_Serial_available quiet_Serial_read
  : quiet_db.

Ltac quiet_steps :=
  repeat first
    [ apply quiet_bind; [|intros ?]
    | apply quiet_while; [discriminate | |]
    | apply quiet_delay; lia
    | match goal with |- quiet (if ?b then _ else _) => destruct b end
    | solve [auto with quiet_db] ].

Lemma quiet_initial_power_on_check : quiet initial_power_on_check.
Proof.
  unfold initial_power_on_check, confirm_cond, confirm_body,
    Serial_print, Serial_println_empty.
  quiet_steps.
Qed.

Lemma quiet_lock_test : quiet lock_test.
Proof.
  unfold lock_test, lock_wait_cond, lock_wait_body, lock_hold_body,
    Serial_println.
  quiet_steps.
Qed.

Lemma quiet_rx_flush :
  quiet (while_ RxFlushLoop Serial_available (Serial_read ;; ret Continue)).
Proof. quiet_steps. Qed.

(** ** The power is cut by [powerDown] alone *)

Lemma safe_of_quiet {A} (c : M A) (w : world) (fuel : nat) (s : state) :
  quiet c -> safe_outcome s (c w fuel s).
Proof. intros Hq. right. apply Hq. Qed.

Lemma safe_powerDown {A} (w : world) (fuel : nat) (s s0 : state)
    (r : result A) :
  r = Spin PowerDownLoop (powered_down w fuel s) -> safe_outcome s0 r.
Proof.
  intros ->. left. split; [reflexivity|]. cbn. apply lookup_insert_eq.
Qed.

Lemma safe_bind {A B} (c : M A) (k : A -> M B) (w : world) (fuel : nat)
    (s : state) :
  safe_outcome s (c w fuel s) ->
  (forall a s1, c w fuel s = Done a s1 -> safe_outcome s1 (k a w fuel s1)) ->
  safe_outcome s (bind c k w fuel s).
Proof.
  intros Hc Hk. unfold bind.
  destruct (c w fuel s) as [a s1 | l s1] eqn:E.
  - destruct Hc as [[Hpd _] | [_ Hfr]]; [discriminate|].
    destruct (Hk a s1 eq_refl) as [Hleft | [Hpd' Hfr']].
    + left. exact Hleft.
    + right. split; [exact Hpd'|]. exact (frame_trans _ _ _ Hfr Hfr').
  - exact Hc.
Qed.

Lemma safe_Done {A} (a : A) (s s' : state) :
  frame s s' -> safe_outcome s (Done a s').
Proof. intros H. right. split; [discriminate | exact H]. Qed.

Ltac frame_now :=
  repeat split;
  [ cbn; lia
  | first [ exists []; symmetry; apply app_nil_r
          | eexists; reflexivity ] ].

Lemma safe_power_button (w : world) (fuel : nat) (s : state) :
  safe_outcome s (power_button w fuel s).
Proof.
  rewrite power_button_spec. cbv zeta.
  repeat match goal with
         | |- context [if ?b then _ else _] => destruct b
         end;
    first [ apply safe_Done; frame_now
          | eapply safe_powerDown; reflexivity ].
Qed.

Lemma safe_serial_commands (w : world) (fuel : nat) (s : state) :
  safe_outcome s (serial_commands w fuel s).
Proof.
  destruct (serial_rx s) as [|c rest] eqn:E.
  - rewrite (serial_commands_none _ _ _ E). apply safe_Done, frame_refl.
  - unfold serial_commands, bind, Serial_available, Serial_read.
    rewrite E. cbv beta iota. rewrite E. cbv beta iota.
    destruct (to_char (Z.of_N (N_of_ascii c)) =? char_lit "z"); cbv beta iota.
    + unfold Serial_println, emit. eapply safe_powerDown. apply powerDown_spec.
    + destruct (to_char (Z.of_N (N_of_ascii c)) =? char_lit "r");
        cbv beta iota.
      * destruct (quiet_lock_test w fuel (with_rx rest s)) as [Hpd Hfr].
        right. split; [exact Hpd|].
        exact (frame_trans _ _ _ (frame_with_rx rest s) Hfr).
      * apply safe_Done, frame_with_rx.
Qed.

Lemma safe_loop (w : world) (fuel : nat) (s : state) :
  safe_outcome s (loop w fuel s).
Proof.
  unfold loop. apply safe_bind.
  - apply safe_serial_commands.
  - intros [] s1 _. apply safe_power_button.
Qed.

Lemma safe_loops (w : world) (fuel : nat) :
  forall (n : nat) (s : state), safe_outcome s (loops n w fuel s).
Proof.
  induction n as [|n IH]; intros s; cbn [loops].
  - apply safe_Done, frame_refl.
  - apply safe_bind; [apply safe_loop|]. intros [] s1 _. apply IH.
Qed.

Lemma off_of_safe {A} (s : state) (r : result A) :
  safe_outcome s r -> off_outcome s r.
Proof.
  intros [Hleft | [Hpd (Ho & _)]]; [left; exact Hleft|].
  right. split; [exact Hpd | now rewrite Ho].
Qed.

Lemma off_setup (w : world) (fuel : nat) (s : state) :
  LED_BUILTIN w <> _OFF -> off_outcome s (setup w fuel s).
Proof.
  intros Hled. unfold setup.
  cbn -[initial_power_on_check powerDown while_ sub32 Z.modulo two32 Z.ltb].
  fold (booted s). unfold bind at 1.
  destruct (quiet_initial_power_on_check w fuel (booted s)) as [Hpd (Ho & _)].
  destruct (initial_power_on_check w fuel (booted s)) as [[] s1 | l s1].
  - unfold bind at 1. unfold millis. unfold bind at 1.
    unfold get_powerPressedStartTime. unfold bind at 1.
    destruct (sub32 (now s1 mod two32) (powerPressedStartTime s1) <? 500).
    + unfold bind at 1, Serial_println at 1, emit. rewrite powerDown_spec.
      left. split; [reflexivity|]. cbn. apply lookup_insert_eq.
    + cbn -[while_].
      match goal with
      | |- off_outcome _ (while_ _ _ _ _ _ ?x) =>
        destruct (quiet_rx_flush w fuel x) as [Hpd' (Ho' & _)]
      end.
      right. split; [exact Hpd'|].
      rewrite Ho'. cbn. rewrite lookup_insert_ne by exact Hled.
      cbn in Ho. now rewrite Ho.
  - right. split; [exact Hpd|]. cbn in *. now rewrite Ho.
Qed.

(** ** Calls of [loop] in a row *)

Lemma bind_assoc {A B C} (c : M A) (k : A -> M B) (h : B -> M C)
    (w : world) (fuel : nat) (s : state) :
  bind (bind c k) h w fuel s = bind c (fun a => bind (k a) h) w fuel s.
Proof. unfold bind. destruct (c w fuel s); reflexivity. Qed.

Lemma bind_ret_r {A} (c : M A) (w : world) (fuel : nat) (s : state) :
  bind c ret w fuel s = c w fuel s.
Proof. unfold bind, ret. destruct (c w fuel s); reflexivity. Qed.

Lemma loops_snoc (w : world) (fuel : nat) :
  forall (n : nat) (s : state),
    loops (S n) w fuel s = bind (loops n) (fun _ => loop) w fuel s.
Proof.
  induction n as [|n IH]; intros s.
  - cbn [loops]. unfold bind, ret.
    destruct (loop w fuel s) as [[] s1 | l s1]; reflexivity.
  - change (loops (S (S n))) with (bind loop (fun _ => loops (S n))).
    change (loops (S n)) with (bind loop (fun _ => loops n)) at 2.
    rewrite bind_assoc.
    destruct (loop w fuel s) as [[] s1 | l s1] eqn:E.
    + rewrite !(bind_Done _ _ _ _ _ _ _ E). apply IH.
    + rewrite !(bind_Spin _ _ _ _ _ _ _ E). reflexivity.
Qed.

(** The button stays pressed and the measured time stays within 2000:
    [n] calls of [loop] return, and only the clock has moved. *)
Lemma loops_hold (w : world) (fuel : nat) :
  forall (n : nat) (s : state),
    serial_rx s = [] ->
    0 < powerPressedStartTime s ->
    held_ms s + 20 * Z.of_nat n <= 2000 ->
    (forall i : nat, (i <= n)%nat -> pressed w (now s + 20 * Z.of_nat i)) ->
    loops n w fuel s = Done tt (tick (20 * Z.of_nat n) s).
Proof.
  induction n as [|n IH]; intros s Hrx Hst Hheld Hp.
  - cbn. now rewrite tick_0.
  - assert (H0 : pressed w (now s))
      by (replace (now s) with (now s + 20 * Z.of_nat 0) by lia;
          apply Hp; lia).
    assert (H1 : pressed w (now s + 20))
      by (replace (now s + 20) with (now s + 20 * Z.of_nat 1) by lia;
          apply Hp; lia).
    pose proof (held_ms_range s) as Hrange.
    assert (Hh : held_ms (tick 20 s) = held_ms s + 20)
      by (apply held_ms_tick_small; [lia | unfold two32; simpl; lia]).
    cbn [loops].
    rewrite (bind_Done _ _ _ _ _ _ _
               (loop_hold w fuel s Hrx Hst H0 H1 ltac:(lia))).
    rewrite IH.
    + rewrite tick_tick. do 2 f_equal. lia.
    + exact Hrx.
    + exact Hst.
    + rewrite Hh. lia.
    + intros i Hi. cbn [tick now].
      replace (now s + 20 + 20 * Z.of_nat i)
        with (now s + 20 * Z.of_nat (S i)) by lia.
      apply Hp. lia.
Qed.

(** The same, when the next call measures more than 2000: that call
    powers down. *)
Lemma loops_hold_off (w : world) (fuel : nat) (n : nat) (s : state) :
  serial_rx s = [] ->
  0 < powerPressedStartTime s ->
  held_ms s + 20 * Z.of_nat n <= 2000 ->
  2000 < held_ms s + 20 * Z.of_nat (S n) ->
  (forall i : nat, (i <= S n)%nat -> pressed w (now s + 20 * Z.of_nat i)) ->
  loops (S n) w fuel s
  = Spin PowerDownLoop
      (powered_down w fuel
        (sent [TxStr "Time to power down!"; TxLn]
          (tick 20 (tick (20 * Z.of_nat n) s)))).
Proof.
  intros Hrx Hst Hle Hgt Hp.
  rewrite loops_snoc.
  erewrite bind_Done
    by (apply loops_hold; try assumption; intros i Hi; apply Hp; lia).
  pose proof (held_ms_range s) as Hrange.
  assert (Hn : held_ms (tick (20 * Z.of_nat n) s) = held_ms s + 20 * Z.of_nat n)
    by (apply held_ms_tick_small; [lia | unfold two32; simpl; lia]).
  apply loop_hold_powers_down.
  - exact Hrx.
  - exact Hst.
  - cbn [tick now]. apply Hp. lia.
  - cbn [tick now].
    replace (now s + 20 * Z.of_nat n + 20)
      with (now s + 20 * Z.of_nat (S n)) by lia.
    apply Hp. lia.
  - rewrite held_ms_tick_small; [lia | lia |].
    rewrite Hn. unfold two32. simpl. lia.
Qed.

(** The button is pressed at the poll and at the second sample, and the
    timer is not running: the call starts it. *)
Lemma loop_press_start (w : world) (fuel : nat) (s : state) :
  serial_rx s = [] -> powerPressedStartTime s = 0 ->
  pressed w (now s) -> pressed w (now s + 20) ->
  loop w fuel s
  = Done tt (with_start ((now s + 20) mod two32)
              (sent [TxStr "User is pressing power button. Start timer."; TxLn]
                (tick 20 s))).
Proof.
  intros Hrx Hst Hp Hp'.
  rewrite (loop_quiet _ _ _ Hrx), power_button_spec. cbv zeta.
  rewrite (is_low_true _ Hp), (is_low_true _ Hp'), Hst.
  reflexivity.
Qed.

(** The button is released and the timer is not running: the call
    changes nothing, not even the clock. *)
Lemma loop_idle (w : world) (fuel : nat) (s : state) :
  serial_rx s = [] -> powerPressedStartTime s = 0 ->
  released w (now s) ->
  loop w fuel s = Done tt s.
Proof.
  intros Hrx Hst Hr.
  rewrite (loop_quiet _ _ _ Hrx), power_button_spec. cbv zeta.
  rewrite (is_low_false _ Hr), (is_high_true _ Hr), Hst.
  reflexivity.
Qed.

(** The power-button code does not read the console. *)
Lemma power_button_rx (w : world) (fuel : nat) (s : state) :
  serial_rx (final_state (power_button w fuel s)) = serial_rx s.
Proof.
  rewrite power_button_spec. cbv zeta.
  repeat match goal with
         | |- context [if ?b then _ else _] => destruct b
         end; reflexivity.
Qed.

Lemma not_command_char (c c0 : ascii) :
  c <> c0 -> (to_char (Z.of_N (N_of_ascii c)) =? char_lit c0) = false.
Proof.
  intros Hne. apply Z.eqb_neq. intros E. apply Hne.
  unfold to_char, char_lit in E.
  assert (Hb : forall a : ascii, (N_of_ascii a < 256)%N)
    by (intros a; apply N_ascii_bounded).
  rewrite Z.mod_small in E by (pose proof (Hb c); lia).
  apply N2Z.inj in E.
  rewrite <- (ascii_N_embedding c), <- (ascii_N_embedding c0).
  now rewrite E.
Qed.

Lemma serial_commands_other (w : world) (fuel : nat) (s : state)
    (c : ascii) (rest : list ascii) :
  serial_rx s = c :: rest -> c <> "z"%char -> c <> "r"%char ->
  serial_commands w fuel s = Done tt (with_rx rest s).
Proof.
  intros E Hz Hr. unfold serial_commands, bind, Serial_available, Serial_read.
  rewrite E. cbv beta iota. rewrite E. cbv beta iota.
  rewrite (not_command_char _ _ Hz), (not_command_char _ _ Hr).
  reflexivity.
Qed.

(** ** Further properties of the sketch *)

(** X1.  The boundary of the power-on check.  When the button is sampled
    pressed at the polls up to 400 ms and released at the poll of 500 ms,
    [setup] measures exactly 500 ms, which is not less than 500: it does
    not power down but returns, 500 ms after it started, with the timer
    at 0 and the status LED on. *)
Theorem setup_release_at_500_powers_on (w : world) (fuel : nat) (s : state) :
  (5 <= fuel)%nat ->
  (length (serial_rx s) <= fuel)%nat ->
  (forall i : nat, (i <= 4)%nat -> pressed w (now s + 100 * Z.of_nat i)) ->
  released w (now s + 500) ->
  exists s',
    setup w fuel s = Done tt s' /\
    now s' = now s + 500 /\
    powerPressedStartTime s' = 0 /\
    gpio_out s' = <[STAT_LED w := HIGH]> (gpio_out s) /\
    serial_rx s' = [].
Proof.
  intros Hfuel Hrx Hp Hr.
  assert (Hcheck : initial_power_on_check w fuel (booted s)
                   = Done tt (after_check 5 (100 * Z.of_nat 5) (booted s))).
  { apply check_released; [lia | exact Hfuel | |exact Hr].
    intros i Hi. apply Hp. lia. }
  eexists. split.
  - apply (setup_on w fuel 5 (100 * Z.of_nat 5) s);
      [unfold two32; simpl; lia | exact Hrx | exact Hcheck].
  - cbn. repeat split.
Qed.

(** X2.  [setup] always decides, and it decides by the first five polls.
    Whatever the input does (six turns allowed, and enough to empty the
    receive buffer): either the button is sampled released at one of the
    polls at 0, 100, ..., 400 ms and [setup] is in [powerDown] with OFF
    HIGH, entered at that poll; or it is sampled pressed at all five and
    [setup] returns, 500 or 600 ms after it started, with the timer at 0,
    the receive buffer empty and the status LED switched on. *)
Theorem setup_decides (w : world) (fuel : nat) (s : state) :
  (6 <= fuel)%nat ->
  (length (serial_rx s) <= fuel)%nat ->
  (exists (k : nat) (s' : state),
     (k <= 4)%nat /\
     (forall i : nat, (i < k)%nat -> pressed w (now s + 100 * Z.of_nat i)) /\
     released w (now s + 100 * Z.of_nat k) /\
     setup w fuel s = Spin PowerDownLoop s' /\
     gpio_out s' !! _OFF = Some HIGH /\
     now s' = now s + 100 * Z.of_nat k + Z.of_nat fuel) \/
  (exists s' : state,
     (forall i : nat, (i <= 4)%nat -> pressed w (now s + 100 * Z.of_nat i)) /\
     setup w fuel s = Done tt s' /\
     (now s' = now s + 500 \/ now s' = now s + 600) /\
     powerPressedStartTime s' = 0 /\
     serial_rx s' = [] /\
     gpio_out s' = <[STAT_LED w := HIGH]> (gpio_out s)).
Proof.
  intros Hfuel Hrx.
  destruct (first_release w (now s) 5) as [Hall | (k & Hk & Hp & Hr)].
  - right.
    destruct (level_cases (pin_level w _PUSH (now s + 100 * Z.of_nat 5)))
      as [E | E].
    + assert (Hcheck : initial_power_on_check w fuel (booted s)
                       = Done tt (after_check 5 600 (booted s))).
      { apply check_timeout; [exact Hfuel|]. intros i Hi.
        destruct (Nat.eq_dec i 5%nat) as [-> | Hne];
          [exact E | apply Hall; lia]. }
      eexists. split; [intros i Hi; apply Hall; lia|]. split.
      * apply (setup_on w fuel 5 600 s);
          [unfold two32; simpl; lia | exact Hrx | exact Hcheck].
      * cbn. repeat split. right. reflexivity.
    + assert (Hcheck : initial_power_on_check w fuel (booted s)
                       = Done tt (after_check 5 (100 * Z.of_nat 5) (booted s))).
      { apply check_released; [lia | lia | | exact E].
        intros i Hi. apply Hall. lia. }
      eexists. split; [intros i Hi; apply Hall; lia|]. split.
      * apply (setup_on w fuel 5 (100 * Z.of_nat 5) s);
          [unfold two32; simpl; lia | exact Hrx | exact Hcheck].
      * cbn. repeat split. left. reflexivity.
  - left. exists k.
    assert (Hcheck : initial_power_on_check w fuel (booted s)
                     = Done tt (after_check k (100 * Z.of_nat k) (booted s)))
      by (apply check_released; try assumption; lia).
    eexists. split; [lia|]. split; [exact Hp|]. split; [exact Hr|]. split.
    + apply (setup_tap w fuel k (100 * Z.of_nat k) s); [lia | exact Hcheck].
    + cbn. split; [apply lookup_insert_eq | reflexivity].
Qed.

(** X3.  A hold powers down at the first poll that measures more than
    2000 ms, and not before.  The timer runs in [s] and the button is
    sampled pressed at every poll; when the measured time is still within
    2000 after [n] calls of [loop] and above 2000 at the next, the [n]
    calls return having changed nothing but the clock, and the next call
    enters [powerDown], 20 ms later, with OFF HIGH.  The clock may wrap
    around in the meantime. *)
Theorem hold_powers_down_after_2000 (w : world) (fuel n : nat) (s : state) :
  serial_rx s = [] ->
  0 < powerPressedStartTime s ->
  held_ms s + 20 * Z.of_nat n <= 2000 ->
  2000 < held_ms s + 20 * Z.of_nat (S n) ->
  (forall i : nat, (i <= S n)%nat -> pressed w (now s + 20 * Z.of_nat i)) ->
  loops n w fuel s = Done tt (tick (20 * Z.of_nat n) s) /\
  exists s',
    loops (S n) w fuel s = Spin PowerDownLoop s' /\
    now s' = now s + 20 * Z.of_nat (S n) + Z.of_nat fuel /\
    gpio_out s' !! _OFF = Some HIGH /\
    serial_tx s' = serial_tx s ++ [TxStr "Time to power down!"; TxLn;
                                   TxStr "Pulling OFF high"; TxLn].
Proof.
  intros Hrx Hst Hle Hgt Hp. split.
  - apply loops_hold; try assumption. intros i Hi. apply Hp. lia.
  - eexists. split; [apply loops_hold_off; assumption|].
    cbn. repeat split.
    + lia.
    + apply lookup_insert_eq.
    + now rewrite <- app_assoc.
Qed.

(** X4.  A button that is stuck powers the system on and then off again.
    With the button pressed at every instant, [setup] returns 600 ms
    after it started, the first call of [loop] starts the timer at
    620 ms, the calls up to the 101st return, and the 102nd enters
    [powerDown] at 2640 ms with OFF HIGH.  (The timer must not be started
    at the instant the millisecond clock reads 0.) *)
Theorem stuck_button_powers_on_then_off (w : world) (fuel : nat) (s0 : state) :
  (forall t : Z, pressed w t) ->
  (6 <= fuel)%nat ->
  (length (serial_rx s0) <= fuel)%nat ->
  (now s0 + 620) mod two32 <> 0 ->
  (exists s1,
     sketch 101 w fuel s0 = Done tt s1 /\
     now s1 = now s0 + 2620 /\
     gpio_out s1 = <[STAT_LED w := HIGH]> (gpio_out s0)) /\
  (exists s',
     sketch 102 w fuel s0 = Spin PowerDownLoop s' /\
     now s' = now s0 + 2640 + Z.of_nat fuel /\
     gpio_out s' !! _OFF = Some HIGH).
Proof.
  intros Hstuck Hfuel Hrx Hne.
  set (s1 := powered_on w (after_check 5 600 (booted s0))).
  assert (Hsetup : setup w fuel s0 = Done tt s1).
  { apply (setup_on w fuel 5 600 s0);
      [unfold two32; simpl; lia | exact Hrx |].
    apply check_timeout; [exact Hfuel|]. intros i _. apply Hstuck. }
  set (s2 := with_start ((now s1 + 20) mod two32)
               (sent [TxStr "User is pressing power button. Start timer."; TxLn]
                 (tick 20 s1))).
  assert (Hfirst : loop w fuel s1 = Done tt s2)
    by (apply loop_press_start; [reflexivity | reflexivity | apply Hstuck..]).
  assert (Hnow1 : now s1 = now s0 + 600) by reflexivity.
  assert (Hst2 : 0 < powerPressedStartTime s2).
  { cbn [s2 powerPressedStartTime with_start]. rewrite Hnow1.
    replace (now s0 + 600 + 20) with (now s0 + 620) by lia.
    pose proof (mod_two32_range (now s0 + 620)). lia. }
  assert (Hheld2 : held_ms s2 = 0)
    by (apply (held_ms_started (tick 20 s1)); reflexivity).
  split.
  - eexists. split.
    + unfold sketch. rewrite (bind_Done _ _ _ _ _ _ _ Hsetup).
      change (loops 101) with (bind loop (fun _ => loops 100)).
      rewrite (bind_Done _ _ _ _ _ _ _ Hfirst).
      apply loops_hold; [reflexivity | exact Hst2 | rewrite Hheld2; lia|].
      intros i _. apply Hstuck.
    + cbn. split; [lia | reflexivity].
  - eexists. split.
    + unfold sketch. rewrite (bind_Done _ _ _ _ _ _ _ Hsetup).
      change (loops 102) with (bind loop (fun _ => loops 101)).
      rewrite (bind_Done _ _ _ _ _ _ _ Hfirst).
      apply (loops_hold_off w fuel 100 s2);
        [reflexivity | exact Hst2 | rewrite Hheld2; lia | rewrite Hheld2; lia|].
      intros i _. apply Hstuck.
    + cbn. split; [lia | apply lookup_insert_eq].
Qed.

(** X5.  A press is accepted only if it lasts through the debounce
    delay.  With nothing on the console and the timer at 0: a call of
    [loop] that polls released returns the state as it was, without even
    waiting; one that polls pressed and samples released 20 ms later only
    lets the 20 ms pass; one that samples pressed both times starts the
    timer with the clock value of the second sample. *)
Theorem press_is_debounced (w : world) (fuel : nat) (s : state) :
  serial_rx s = [] -> powerPressedStartTime s = 0 ->
  (released w (now s) -> loop w fuel s = Done tt s) /\
  (pressed w (now s) -> released w (now s + debounceDelay) ->
   loop w fuel s = Done tt (tick debounceDelay s)) /\
  (pressed w (now s) -> pressed w (now s + debounceDelay) ->
   exists s',
     loop w fuel s = Done tt s' /\
     powerPressedStartTime s' = (now s + debounceDelay) mod two32 /\
     now s' = now s + debounceDelay /\
     gpio_out s' = gpio_out s /\
     serial_tx s' = serial_tx s ++
       [TxStr "User is pressing power button. Start timer."; TxLn]).
Proof.
  intros Hrx Hst. split; [|split].
  - intros Hr. now apply loop_idle.
  - intros Hp Hr. now apply loop_press_flicker.
  - intros Hp Hp'. eexists. split.
    + now apply loop_press_start.
    + cbn. repeat split.
Qed.

(** X6.  In normal operation the power is cut by [powerDown] alone.
    Whatever the input and the console do, after any number of calls of
    [loop] either control is inside [powerDown] and the OFF line is HIGH,
    or no pin mode and no output has changed; in that case the clock has
    not gone back and the console transcript has only grown. *)
Theorem loops_leave_power_alone (n : nat) (w : world) (fuel : nat) (s : state) :
  let r := loops n w fuel s in
  (spinning_in r = Some PowerDownLoop /\
   gpio_out (final_state r) !! _OFF = Some HIGH) \/
  (spinning_in r <> Some PowerDownLoop /\
   gpio_out (final_state r) = gpio_out s /\
   gpio_mode (final_state r) = gpio_mode s /\
   now s <= now (final_state r) /\
   exists sent_now, serial_tx (final_state r) = serial_tx s ++ sent_now).
Proof. apply safe_loops. Qed.

Lemma at_tick_off (w : world) (s0 : state) (p : Z) (s : state) :
  LED_BUILTIN w <> _OFF ->
  at_tick w s0 p s ->
  gpio_out s !! _OFF = gpio_out s0 !! _OFF.
Proof.
  intros Hled.
  induction 1 as [fuel s Hsetup | fuel p s s1 s' Hs IH Hcmd Hloop
                 | p s rx Hs IH | p s d Hs IH Hd].
  - destruct (off_setup w fuel s0 Hled) as [[Hpd _] | [_ Hoff]];
      rewrite Hsetup in *; [discriminate | exact Hoff].
  - destruct (safe_loop w fuel s) as [[Hpd _] | [_ (Ho & _)]];
      rewrite Hloop in *; [discriminate|].
    cbn [final_state] in Ho. now rewrite Ho.
  - exact IH.
  - exact IH.
Qed.

(** X7.  From reset on, the OFF line is driven by [powerDown] alone.  On
    a board whose LED is not on the OFF pin, whatever the button does,
    whatever the console receives and however long the sketch idles
    between two calls of [loop]: wherever [setup] stands, either it is
    inside [powerDown] with the OFF line HIGH, or the OFF line is as it
    was at reset; between two calls of [loop] the OFF line is as it was
    at reset; and wherever a call of [loop] stands (returned, or still in
    one of its loops), either it is inside [powerDown] with the OFF line
    HIGH, or the OFF line is as it was at reset. *)
Theorem off_driven_only_by_powerDown (w : world) (s0 : state) :
  LED_BUILTIN w <> _OFF ->
  (forall fuel : nat,
     let r := setup w fuel s0 in
     (spinning_in r = Some PowerDownLoop /\
      gpio_out (final_state r) !! _OFF = Some HIGH) \/
     (spinning_in r <> Some PowerDownLoop /\
      gpio_out (final_state r) !! _OFF = gpio_out s0 !! _OFF)) /\
  (forall (p : Z) (s : state),
     at_tick w s0 p s ->
     gpio_out s !! _OFF = gpio_out s0 !! _OFF /\
     forall fuel : nat,
       let r := loop w fuel s in
       (spinning_in r = Some PowerDownLoop /\
        gpio_out (final_state r) !! _OFF = Some HIGH) \/
       (spinning_in r <> Some PowerDownLoop /\
        gpio_out (final_state r) !! _OFF = gpio_out s0 !! _OFF)).
Proof.
  intros Hled. split.
  - intros fuel. apply (off_setup w fuel s0 Hled).
  - intros p s Hs.
    pose proof (at_tick_off w s0 p s Hled Hs) as Hoff.
    split; [exact Hoff|]. intros fuel. cbv zeta.
    destruct (off_of_safe _ _ (safe_loop w fuel s)) as [Hl | [Hpd Ho]].
    + left. exact Hl.
    + right. split; [exact Hpd | now rewrite Ho].
Qed.

(** X8.  The lock of the command 'r' does not end by itself and never
    drives OFF: it is the hardware that must cut the power.  If the button
    is never pressed the call of [loop] stays in the first loop of the
    lock, for any number of turns, with the timer untouched.  If the
    button is first sampled pressed after [k] ms and stays pressed, the
    call stays in the second loop, for any number of turns from [k] on,
    the timer holding the clock value of that sample.  In both cases no
    output is changed. *)
Theorem lock_waits_for_hardware (w : world) (k : nat) (s : state)
    (rest : list ascii) :
  serial_rx s = "r"%char :: rest ->
  ((forall i : nat, released w (now s + Z.of_nat i)) ->
   forall fuel : nat,
   exists s1,
     loop w fuel s = Spin LockWaitLoop s1 /\
     now s1 = now s + Z.of_nat fuel /\
     powerPressedStartTime s1 = powerPressedStartTime s /\
     gpio_out s1 = gpio_out s) /\
  ((forall i : nat, (i < k)%nat -> released w (now s + Z.of_nat i)) ->
   (forall i : nat, (k <= i)%nat -> pressed w (now s + Z.of_nat i)) ->
   forall fuel : nat, (k <= fuel)%nat ->
   exists s1,
     loop w fuel s = Spin LockHoldLoop s1 /\
     now s1 = now s + Z.of_nat k + Z.of_nat fuel /\
     powerPressedStartTime s1 = (now s + Z.of_nat k) mod two32 /\
     gpio_out s1 = gpio_out s).
Proof.
  intros Hrx. split.
  - intros Hrel fuel. eexists. split.
    + unfold loop. apply bind_Spin.
      rewrite (serial_commands_r _ _ _ _ Hrx).
      apply lock_test_waiting. intros i _. apply Hrel.
    + cbn. repeat split.
  - intros Hrel Hheld fuel Hfuel. eexists. split.
    + unfold loop. apply bind_Spin.
      rewrite (serial_commands_r _ _ _ _ Hrx).
      apply (lock_test_holding w fuel k); try assumption.
      * apply Hheld. lia.
      * intros i Hi. cbn [with_rx now].
        replace (now s + Z.of_nat k + Z.of_nat i)
          with (now s + Z.of_nat (k + i)) by lia.
        apply Hheld. lia.
    + cbn. repeat split.
Qed.

(** X9.  A character that is no command is dropped.  When the next
    character received is neither 'z' nor 'r', the call of [loop] takes
    it out of the receive buffer and goes on with the power button as if
    nothing had been received; a call reads one character at most, so
    what follows it is still in the buffer when the call returns. *)
Theorem unknown_command_is_dropped (w : world) (fuel : nat) (s : state)
    (c : ascii) (rest : list ascii) :
  serial_rx s = c :: rest -> c <> "z"%char -> c <> "r"%char ->
  loop w fuel s = power_button w fuel (with_rx rest s) /\
  serial_rx (final_state (loop w fuel s)) = rest.
Proof.
  intros Hrx Hz Hr.
  assert (E : loop w fuel s = power_button w fuel (with_rx rest s)).
  { unfold loop.
    now rewrite (bind_Done _ _ _ _ _ _ _
                   (serial_commands_other w fuel s c rest Hrx Hz Hr)). }
  split; [exact E|]. rewrite E. apply power_button_rx.
Qed.

(** X10.  The value 0 of the timer means that it is not running, and the
    millisecond clock reads 0 when it wraps around.  A press confirmed at
    that very instant leaves the timer at 0; the next call of [loop] then
    takes the press for a new one and starts the timer 20 ms later. *)
Theorem press_at_clock_zero_restarts (w : world) (fuel : nat) (s : state) :
  serial_rx s = [] -> powerPressedStartTime s = 0 ->
  (now s + 20) mod two32 = 0 ->
  pressed w (now s) -> pressed w (now s + 20) -> pressed w (now s + 40) ->
  exists s1 s2,
    loop w fuel s = Done tt s1 /\
    powerPressedStartTime s1 = 0 /\
    loop w fuel s1 = Done tt s2 /\
    now s2 = now s + 40 /\
    powerPressedStartTime s2 = 20.
Proof.
  intros Hrx Hst Hzero Hp Hp' Hp''.
  do 2 eexists. split; [now apply loop_press_start|].
  split; [exact Hzero|]. split.
  - apply loop_press_start; cbn; try assumption.
    replace (now s + 20 + 20) with (now s + 40) by lia. exact Hp''.
  - cbn. split; [lia|].
    replace (now s + 20 + 20) with ((now s + 20) + 20) by lia.
    rewrite <- Zplus_mod_idemp_l, Hzero. reflexivity.
Qed.

(** X11.  A hold is timed right whatever the millisecond clock reads,
    also when it wraps around during the hold.  With nothing on the
    console and the timer at 0, the button is polled pressed and stays
    pressed: the first call of [loop] starts the timer (which must not
    be at the instant the clock reads 0), the calls up to the 101st
    return, 2020 ms after the poll, with no output changed, and the
    102nd enters [powerDown], 2040 ms after the poll, with the OFF pin
    an output and HIGH. *)
Theorem hold_is_timed_across_clock_wrap (w : world) (fuel : nat) (s : state) :
  serial_rx s = [] -> powerPressedStartTime s = 0 ->
  (now s + 20) mod two32 <> 0 ->
  (forall i : nat, (i <= 102)%nat -> pressed w (now s + 20 * Z.of_nat i)) ->
  (exists s1,
     loops 101 w fuel s = Done tt s1 /\
     now s1 = now s + 2020 /\
     gpio_out s1 = gpio_out s) /\
  (exists s',
     loops 102 w fuel s = Spin PowerDownLoop s' /\
     now s' = now s + 2040 + Z.of_nat fuel /\
     gpio_out s' !! _OFF = Some HIGH /\
     gpio_mode s' !! _OFF = Some OUTPUT).
Proof.
  intros Hrx Hst Hne Hp.
  set (s2 := with_start ((now s + 20) mod two32)
               (sent [TxStr "User is pressing power button. Start timer."; TxLn]
                 (tick 20 s))).
  assert (Hfirst : loop w fuel s = Done tt s2).
  { apply loop_press_start; [exact Hrx | exact Hst | |].
    - replace (now s) with (now s + 20 * Z.of_nat 0) by lia. apply Hp. lia.
    - replace (now s + 20) with (now s + 20 * Z.of_nat 1) by lia.
      apply Hp. lia. }
  assert (Hst2 : 0 < powerPressedStartTime s2).
  { cbn [s2 powerPressedStartTime with_start].
    pose proof (mod_two32_range (now s + 20)). lia. }
  assert (Hheld2 : held_ms s2 = 0)
    by (apply (held_ms_started (tick 20 s)); reflexivity).
  assert (Hp2 : forall i : nat, (i <= 101)%nat ->
                  pressed w (now s2 + 20 * Z.of_nat i)).
  { intros i Hi. cbn [s2 now with_start sent tick].
    replace (now s + 20 + 20 * Z.of_nat i)
      with (now s + 20 * Z.of_nat (S i)) by lia.
    apply Hp. lia. }
  split.
  - eexists. split.
    + change (loops 101) with (bind loop (fun _ => loops 100)).
      rewrite (bind_Done _ _ _ _ _ _ _ Hfirst).
      apply loops_hold; [exact Hrx | exact Hst2 | rewrite Hheld2; lia|].
      intros i Hi. apply Hp2. lia.
    + cbn. split; [lia | reflexivity].
  - eexists. split.
    + change (loops 102) with (bind loop (fun _ => loops 101)).
      rewrite (bind_Done _ _ _ _ _ _ _ Hfirst).
      apply (loops_hold_off w fuel 100 s2);
        [exact Hrx | exact Hst2 | rewrite Hheld2; lia | rewrite Hheld2; lia|].
      intros i Hi. apply Hp2. lia.
    + cbn. repeat split; [lia | apply lookup_insert_eq | apply lookup_insert_eq].
Qed.

(** X12.  A release that lasts through the debounce delay is reported.
    With nothing on the console and the timer running, a call of [loop]
    that samples released twice prints the time measured at the second
    sample, 20 ms more than at the poll, resets the timer and changes no
    output. *)
Theorem release_is_reported (w : world) (fuel : nat) (s : state) :
  serial_rx s = [] -> 0 < powerPressedStartTime s ->
  released w (now s) -> released w (now s + 20) ->
  held_ms s + 20 < two32 ->
  exists s',
    loop w fuel s = Done tt s' /\
    serial_tx s' = serial_tx s ++
      [TxStr "Power button released after ms: ";
       TxNum (held_ms s + 20); TxLn] /\
    powerPressedStartTime s' = 0 /\
    now s' = now s + 20 /\
    gpio_out s' = gpio_out s.
Proof.
  intros Hrx Hst Hr Hr' Hlt.
  destruct (timer_running_tests _ Hst) as [E0 E1].
  eexists. split.
  - rewrite (loop_quiet _ _ _ Hrx), power_button_spec. cbv zeta.
    rewrite (is_low_false _ Hr), (is_high_true _ Hr), (is_high_true _ Hr'), E1.
    reflexivity.
  - cbn [serial_tx with_start sent tick powerPressedStartTime now gpio_out].
    rewrite (held_ms_tick_small 20 s) by lia.
    repeat split.
Qed.

(** ** The further properties at concrete inputs *)

(** A power-on with the button released after 450 ms. *)
Lemma setup_release_at_500_powers_on_witness :
  exists s',
    setup (held_until 450) 5%nat (reset_state 0) = Done tt s' /\
    now s' = 500 /\
    powerPressedStartTime s' = 0.
Proof.
  destruct (setup_release_at_500_powers_on (held_until 450) 5 (reset_state 0))
    as (s' & H1 & H2 & H3 & _).
  - lia.
  - simpl. lia.
  - intros i Hi. sample_cases i.
  - reflexivity.
  - exists s'. repeat split; assumption.
Defined.

(** A power-on with the button released after 250 ms: one of the two
    cases holds. *)
Lemma setup_decides_witness :
  (exists s', setup (held_until 250) 6%nat (reset_state 0)
              = Spin PowerDownLoop s') \/
  (exists s', setup (held_until 250) 6%nat (reset_state 0) = Done tt s').
Proof.
  destruct (setup_decides (held_until 250) 6 (reset_state 0))
    as [(k & s' & _ & _ & _ & H & _) | (s' & _ & H & _)].
  - lia.
  - simpl. lia.
  - left. exists s'. exact H.
  - right. exists s'. exact H.
Defined.

(** A hold measured at 1980 ms, with the button stuck: the next call
    returns, the one after powers down. *)
Lemma hold_powers_down_after_2000_witness :
  exists s',
    loops 2 stuck_button 3%nat (with_start 620 (reset_state 2600))
      = Spin PowerDownLoop s' /\
    now s' = 2643 /\
    gpio_out s' !! _OFF = Some HIGH.
Proof.
  destruct (hold_powers_down_after_2000 stuck_button 3 1
              (with_start 620 (reset_state 2600)))
    as (_ & s' & H1 & H2 & H3 & _).
  - reflexivity.
  - reflexivity.
  - vm_compute. discriminate.
  - reflexivity.
  - intros i _. reflexivity.
  - exists s'. repeat split; assumption.
Defined.

(** The sketch from reset with the button stuck. *)
Lemma stuck_button_powers_on_then_off_witness :
  exists s',
    sketch 102 stuck_button 6%nat (reset_state 0) = Spin PowerDownLoop s' /\
    now s' = 2646 /\
    gpio_out s' !! _OFF = Some HIGH.
Proof.
  destruct (stuck_button_powers_on_then_off stuck_button 6 (reset_state 0))
    as (_ & s' & H1 & H2 & H3).
  - intros t. reflexivity.
  - lia.
  - simpl. lia.
  - vm_compute. discriminate.
  - exists s'. repeat split; assumption.
Defined.

(** Three polls with the timer at 0: the button released, a press of
    less than 10 ms, and the button stuck. *)
Lemma press_is_debounced_witness :
  loop (held_until 0) 3%nat (reset_state 0) = Done tt (reset_state 0) /\
  loop (held_until 10) 3%nat (reset_state 0)
    = Done tt (tick debounceDelay (reset_state 0)) /\
  (exists s', loop stuck_button 3%nat (reset_state 0) = Done tt s' /\
              powerPressedStartTime s' = 20).
Proof.
  split; [|split].
  - apply (proj1 (press_is_debounced (held_until 0) 3 (reset_state 0)
                    eq_refl eq_refl)).
    reflexivity.
  - apply (proj1 (proj2 (press_is_debounced (held_until 10) 3 (reset_state 0)
                           eq_refl eq_refl)));
      reflexivity.
  - destruct (proj2 (proj2 (press_is_debounced stuck_button 3 (reset_state 0)
                              eq_refl eq_refl)))
      as (s' & H1 & H2 & _); [reflexivity | reflexivity |].
    exists s'. split; assumption.
Defined.

(** The board whose LED is on pin 13 and whose button is held until
    630 ms: the sketch has powered on and idles until 3000 ms, where the
    console has received 'z'; the next call of [loop] is in [powerDown]
    with the OFF line HIGH. *)
Lemma off_driven_only_by_powerDown_witness :
  let w := held_until 630 in
  let s0 := reset_state 0 in
  let s1 := final_state (setup w 10%nat s0) in
  let s := with_rx ["z"%char] (tick 2400 s1) in
  at_tick w s0 600 s /\
  gpio_out s !! _OFF = None /\
  spinning_in (loop w 10%nat s) = Some PowerDownLoop /\
  gpio_out (final_state (loop w 10%nat s)) !! _OFF = Some HIGH.
Proof.
  cbv zeta.
  set (w := held_until 630).
  set (s0 := reset_state 0).
  set (s1 := final_state (setup w 10%nat s0)).
  assert (H1 : at_tick w s0 600 s1).
  { apply (tick_setup w s0 10%nat s1). vm_compute. reflexivity. }
  assert (H2 : at_tick w s0 600 (with_rx ["z"%char] (tick 2400 s1))).
  { apply tick_rx. apply tick_time; [exact H1 | lia]. }
  assert (Hled : LED_BUILTIN w <> _OFF) by (vm_compute; discriminate).
  destruct (proj2 (off_driven_only_by_powerDown w s0 Hled) _ _ H2)
    as [Hoff Hloop].
  split; [exact H2|]. split; [exact Hoff|].
  destruct (Hloop 10%nat) as [[Hpd Hhigh] | [Hpd _]].
  - split; assumption.
  - exfalso. apply Hpd. vm_compute. reflexivity.
Defined.

(** The lock with the button never pressed, and with the button pressed
    for ever from 3 ms on. *)
Lemma lock_waits_for_hardware_witness :
  (exists s1,
     loop (held_until 0) 50%nat (with_rx ["r"%char] (reset_state 0))
       = Spin LockWaitLoop s1 /\
     gpio_out s1 = ∅) /\
  (exists s1,
     loop (pressed_from 3) 50%nat (with_rx ["r"%char] (reset_state 0))
       = Spin LockHoldLoop s1 /\
     now s1 = 53 /\
     powerPressedStartTime s1 = 3).
Proof.
  split.
  - destruct (proj1 (lock_waits_for_hardware (held_until 0) 0
                       (with_rx ["r"%char] (reset_state 0)) [] eq_refl))
      with (fuel := 50%nat) as (s1 & H1 & _ & _ & H2).
    + intros i. unfold released, held_until. cbn.
      destruct (Z.ltb_spec (0 + Z.of_nat i) 0); [lia | reflexivity].
    + exists s1. split; assumption.
  - destruct (proj2 (lock_waits_for_hardware (pressed_from 3) 3
                       (with_rx ["r"%char] (reset_state 0)) [] eq_refl))
      with (fuel := 50%nat) as (s1 & H1 & H2 & H3 & _).
    + intros i Hi. sample_cases i.
    + intros i Hi. unfold pressed, pressed_from. cbn.
      destruct (Z.leb_spec 3 (0 + Z.of_nat i)); [reflexivity | lia].
    + lia.
    + exists s1. repeat split; assumption.
Defined.

(** The characters 'a' and 'z' in the receive buffer: the call drops the
    'a' and leaves the 'z'. *)
Lemma unknown_command_is_dropped_witness :
  serial_rx
    (final_state
       (loop stuck_button 3%nat (with_rx ["a"%char; "z"%char] (reset_state 0))))
  = ["z"%char].
Proof.
  apply (unknown_command_is_dropped stuck_button 3
           (with_rx ["a"%char; "z"%char] (reset_state 0)) "a"%char ["z"%char]).
  - reflexivity.
  - discriminate.
  - discriminate.
Defined.

(** A press confirmed 20 ms after the clock read 2^32 - 20. *)
Lemma press_at_clock_zero_restarts_witness :
  exists s1 s2,
    loop stuck_button 3%nat (reset_state (two32 - 20)) = Done tt s1 /\
    powerPressedStartTime s1 = 0 /\
    loop stuck_button 3%nat s1 = Done tt s2 /\
    powerPressedStartTime s2 = 20.
Proof.
  destruct (press_at_clock_zero_restarts stuck_button 3 (reset_state (two32 - 20)))
    as (s1 & s2 & H1 & H2 & H3 & _ & H4); try reflexivity.
  exists s1, s2. repeat split; assumption.
Defined.

(** A press polled 1000 ms before the clock wraps around, with the
    button stuck. *)
Lemma hold_is_timed_across_clock_wrap_witness :
  exists s',
    loops 102 stuck_button 3%nat (reset_state (two32 - 1000))
      = Spin PowerDownLoop s' /\
    now s' = two32 + 1043 /\
    gpio_out s' !! _OFF = Some HIGH.
Proof.
  destruct (hold_is_timed_across_clock_wrap stuck_button 3
              (reset_state (two32 - 1000)))
    as (_ & s' & H1 & H2 & H3 & _).
  - reflexivity.
  - reflexivity.
  - vm_compute. discriminate.
  - intros i _. reflexivity.
  - exists s'. repeat split; [exact H1 | | exact H3].
    rewrite H2. vm_compute. reflexivity.
Defined.

(** A release seen at 1000 ms, with the timer started at 620 ms. *)
Lemma release_is_reported_witness :
  exists s',
    loop (held_until 0) 3%nat (with_start 620 (reset_state 1000)) = Done tt s' /\
    serial_tx s' = [TxStr "Power button released after ms: "; TxNum 400; TxLn].
Proof.
  destruct (release_is_reported (held_until 0) 3
              (with_start 620 (reset_state 1000)))
    as (s' & H1 & H2 & _); try reflexivity.
  exists s'. split; [exact H1 | exact H2].
Defined.
